(** * Portfolio rebalancer: a shallow embedding of [portfolio.py]

    The development follows the source file top to bottom:

    - the arithmetic the program runs on (Python [float]), as an interface
      [PyFloat] with two implementations: IEEE binary64 through Rocq's
      primitive floats ([Float64], what CPython computes) and exact
      rationals ([Exact], the arithmetic the program's comments reason in);
    - Python's insertion-ordered [dict] as an association list ([Dict]);
    - the objects the program shares by reference (the target-allocation
      and holdings dictionaries) in an explicit heap, with a state and
      exception monad ([M]);
    - the classes [Stock] and [Portfolio], method by method;
    - the specification's wording of the operations, where a property
      compares the two;
    - the callers of the engine in [app.py]: the start of a session and
      the handlers of its two forms;
    - the properties. *)

From Stdlib Require Import ZArith QArith Qabs Floats List String Ascii Bool.
From Stdlib Require Import Lia Lqa Sorted Permutation OrdersEx.
Import ListNotations.

Set Warnings "-inexact-float".
Close Scope Q_scope.
Local Open Scope string_scope.
Local Open Scope list_scope.

(* ================================================================= *)
(** ** Arithmetic *)

(** The operations [portfolio.py] applies to numbers. [fsum] is the builtin
    [sum] (which starts from the integer 0), [fround2] is [round(x, 2)],
    [flt a b] is [a < b] (and [b > a]), [feq] is [==]. [fle] is not used by
    the program; the properties use it to say "non-negative". Python's [/]
    raises [ZeroDivisionError] on a zero divisor; each of the program's
    three divisions stands under a test that the divisor is greater than 0,
    so [fdiv] is never applied to 0. *)
Class PyFloat (F : Type) : Type := {
  fzero : F;          (* 0 and 0.0 *)
  fone : F;           (* 1.0 *)
  fcent : F;          (* 0.01 *)
  fhundred : F;       (* 100 *)
  fadd : F -> F -> F;
  fsub : F -> F -> F;
  fmul : F -> F -> F;
  fdiv : F -> F -> F;
  fneg : F -> F;
  fabs : F -> F;
  fround2 : F -> F;
  fsum : list F -> F;
  flt : F -> F -> bool;
  feq : F -> F -> bool;
  fle : F -> F -> bool
}.

(** The only facts about comparison the control flow of the program rests
    on; both implementations satisfy them. *)
Class PyFloatOrder (F : Type) {PF : PyFloat F} : Prop := {
  flt_zero_irrefl : flt fzero fzero = false;
  flt_zero_asym : forall x, flt fzero x = true -> flt x fzero = false;
  flt_zero_fle : forall x, flt fzero x = true -> fle fzero x = true;
  fle_zero_refl : fle fzero fzero = true;
  fle_zero_not_lt : forall x, fle fzero x = true -> flt x fzero = false
}.

(** [max(a, b)] of two arguments: Python keeps the first argument unless
    the second compares greater. *)
Definition pymax {F} {PF : PyFloat F} (a b : F) : F :=
  if flt a b then b else a.

(* ----------------------------------------------------------------- *)
(** *** Exact rationals *)

Module Exact.

(** [round(x, 2)]: the nearest multiple of 1/100, a tie going to the even
    one. *)
Definition round2 (x : Q) : Q :=
  let n := (Qnum x * 100)%Z in
  let d := Z.pos (Qden x) in
  let q := (n / d)%Z in
  let r := (n mod d)%Z in
  match (2 * r ?= d)%Z with
  | Lt => q # 100
  | Gt => (q + 1) # 100
  | Eq => if Z.even q then q # 100 else (q + 1) # 100
  end.

Definition ltb (a b : Q) : bool := negb (Qle_bool b a).

#[export] Instance Q_PyFloat : PyFloat Q := {|
  fzero := 0%Q;
  fone := 1%Q;
  fcent := (1 # 100)%Q;
  fhundred := 100%Q;
  fadd := Qplus;
  fsub := Qminus;
  fmul := Qmult;
  fdiv := Qdiv;
  fneg := Qopp;
  fabs := Qabs;
  fround2 := round2;
  fsum := fun l => fold_left Qplus l 0%Q;
  flt := ltb;
  feq := Qeq_bool;
  fle := Qle_bool
|}.

End Exact.

(* ----------------------------------------------------------------- *)
(** *** IEEE binary64 *)

Module Float64.

Local Open Scope float_scope.

(** [round(x, 2)] as CPython computes it: the exact binary value of [x] is
    rounded to two decimals (ties to even) and the decimal result is
    converted back to the nearest binary64. Infinities and NaN are
    returned as they are. (CPython raises [OverflowError] where the
    conversion back overflows; at that magnitude every binary64 is an
    integer and rounds to itself, so this does not happen.) *)
Definition round2 (x : float) : float :=
  match Prim2SF x with
  | S754_finite s m e =>
      let num := (Z.pos m * 100 * (if (0 <=? e)%Z then 2 ^ e else 1))%Z in
      let den := (if (0 <=? e)%Z then 1 else 2 ^ (- e))%Z in
      let q := (num / den)%Z in
      let r := (num mod den)%Z in
      let n := match (2 * r ?= den)%Z with
               | Lt => q
               | Gt => (q + 1)%Z
               | Eq => if Z.even q then q else (q + 1)%Z
               end in
      match n with
      | Z.pos p =>
          SF2Prim (SFdiv prec emax (S754_finite s p 0) (S754_finite false 100 0))
      | _ => if s then (- 0) else 0
      end
  | _ => x
  end.

(** The builtin [sum] up to Python 3.11: a plain left-to-right sum that
    starts from the integer 0. *)
Definition sum_plain (l : list float) : float := fold_left PrimFloat.add l 0.

(** The builtin [sum] from Python 3.12 on: Neumaier's compensated
    summation once the running total is a float. *)
Fixpoint neumaier (l : list float) (f c : float) : float :=
  match l with
  | [] =>
      if negb (PrimFloat.eqb c 0) && is_finite c then f + c else f
  | x :: l' =>
      let t := f + x in
      let c' := if PrimFloat.leb (abs x) (abs f)
                then c + ((f - t) + x)
                else c + ((x - t) + f) in
      neumaier l' t c'
  end.

Definition sum_compensated (l : list float) : float :=
  match l with
  | [] => 0
  | x :: l' => neumaier l' (0 + x) 0
  end.

(** The two CPython behaviours differ in [sum] only. *)
Definition Float_PyFloat (compensated : bool) : PyFloat float := {|
  fzero := 0;
  fone := 1;
  fcent := 0.01;
  fhundred := 100;
  fadd := PrimFloat.add;
  fsub := PrimFloat.sub;
  fmul := PrimFloat.mul;
  fdiv := PrimFloat.div;
  fneg := PrimFloat.opp;
  fabs := PrimFloat.abs;
  fround2 := round2;
  fsum := if compensated then sum_compensated else sum_plain;
  flt := PrimFloat.ltb;
  feq := PrimFloat.eqb;
  fle := PrimFloat.leb
|}.

End Float64.

(* ================================================================= *)
(** ** Dictionaries *)

(** A Python [dict] with string keys keeps its entries in insertion order;
    assigning to a key that is present replaces the value where it stands,
    assigning to a new key appends. *)
Module Dict.

Definition dict (V : Type) : Type := list (string * V).

Definition keys {V} (d : dict V) : list string := map fst d.
Definition values {V} (d : dict V) : list V := map snd d.

(** [d.get(k)] as an option. *)
Fixpoint find {V} (k : string) (d : dict V) : option V :=
  match d with
  | [] => None
  | (k', v) :: d' => if String.eqb k k' then Some v else find k d'
  end.

(** [k in d]. *)
Definition mem {V} (k : string) (d : dict V) : bool :=
  match find k d with Some _ => true | None => false end.

(** [d.get(k, default)]. *)
Definition get {V} (d : dict V) (k : string) (default : V) : V :=
  match find k d with Some v => v | None => default end.

(** [d[k] = v]. *)
Fixpoint set {V} (d : dict V) (k : string) (v : V) : dict V :=
  match d with
  | [] => [(k, v)]
  | (k', v') :: d' =>
      if String.eqb k k' then (k', v) :: d' else (k', v') :: set d' k v
  end.

(** A Python dictionary never holds a key twice. *)
Definition wf {V} (d : dict V) : Prop := NoDup (keys d).

End Dict.

(* ================================================================= *)
(** ** Heap, exceptions and the monad of methods *)

(** The two dictionaries a [Portfolio] stores are Python objects held by
    reference: the constructor stores the caller's objects, and methods
    mutate them in place. The heap maps a location to the dictionary that
    lives there. *)
Section HeapModel.

Context {F : Type}.

Definition loc : Type := nat.

Record heap : Type := {
  cells : loc -> Dict.dict F;
  next : loc                      (* the next unused location *)
}.

Definition read (h : heap) (l : loc) : Dict.dict F := cells h l.

Definition write (h : heap) (l : loc) (d : Dict.dict F) : heap :=
  {| cells := fun l' => if Nat.eqb l' l then d else cells h l';
     next := next h |}.

(** The exceptions the program raises: [ValueError] with its message, and
    the [KeyError] of a failed subscript [d[k]]. *)
Inductive exn : Type :=
| ValueError (message : string)
| KeyError (key : string).

Inductive result (A : Type) : Type :=
| Ok (a : A)
| Raise (e : exn).

(** A method runs on a heap and either returns or raises; what it wrote
    before raising stays written. *)
Definition M (A : Type) : Type := heap -> result A * heap.

Definition ret {A} (a : A) : M A := fun h => (Ok A a, h).

Definition raise {A} (e : exn) : M A := fun h => (Raise A e, h).

Definition bind {A B} (m : M A) (k : A -> M B) : M B :=
  fun h =>
    match m h with
    | (Ok _ a, h') => k a h'
    | (Raise _ e, h') => (Raise B e, h')
    end.

Definition load (l : loc) : M (Dict.dict F) := fun h => (Ok _ (read h l), h).

Definition store (l : loc) (d : Dict.dict F) : M unit :=
  fun h => (Ok _ tt, write h l d).

(** A dictionary display [{}] creates a new object. *)
Definition alloc (d : Dict.dict F) : M loc :=
  fun h =>
    (Ok _ (next h),
     {| cells := fun l' => if Nat.eqb l' (next h) then d else cells h l';
        next := S (next h) |}).

(** The subscript [d[k]] on a dictionary held by value. *)
Definition getitem {V} (d : Dict.dict V) (k : string) : M V :=
  match Dict.find k d with
  | Some v => ret v
  | None => raise (KeyError k)
  end.

End HeapModel.

Arguments heap : clear implicits.
Arguments M : clear implicits.
Arguments Ok {A} a.
Arguments Raise {A} e.

Notation "x <- m ;; k" := (bind m (fun x => k))
  (at level 61, m at next level, right associativity).
Notation "m ;;; k" := (bind m (fun _ => k))
  (at level 61, right associativity).

(* ================================================================= *)
(** ** The classes [Stock] and [Portfolio] *)

Section Engine.

Context {F : Type} {PF : PyFloat F}.

Record Stock : Type := {
  symbol : string;
  _price : F
}.

Definition current_price (self : Stock) : F := _price self.

(** [self.target_allocation] and [self.holdings] are references;
    [self.stock_objects] is built by the constructor and never written
    again. *)
Record Portfolio : Type := {
  target_allocation : loc;
  stock_objects : Dict.dict Stock;
  holdings : loc
}.

(** An order is the two-key dictionary
    [{"symbol": ..., "amount_in_dollars": ...}]. *)
Record Order : Type := {
  order_symbol : string;
  amount_in_dollars : F
}.

(** A plan is the dictionary [{"buy": [...], "sell": [...]}]. *)
Definition Plan : Type := Dict.dict (list Order).

(* --------------------------------------------------------------- *)
(** *** [__init__] *)

(** [{stock.symbol: stock for stock in all_tradable_stocks}] *)
Definition index_stocks (all_tradable_stocks : list Stock) : Dict.dict Stock :=
  fold_left (fun d stock => Dict.set d (symbol stock) stock)
            all_tradable_stocks [].

(** The loop of lines 38-40. *)
Fixpoint check_tradable (symbols : list string) (stocks : Dict.dict Stock)
  : M F unit :=
  match symbols with
  | [] => ret tt
  | s :: rest =>
      if negb (Dict.mem s stocks)
      then raise (ValueError
             ("Stock '" ++ s ++ "' in target allocation is not in tradable stocks list."))
      else check_tradable rest stocks
  end.

(** [target] is the caller's dictionary object: the sum and the loop of
    lines 38-40 read the same, unchanged, dictionary. *)
Definition __init__ (all_tradable_stocks : list Stock)
    (target : loc) (initial_holdings : option loc) : M F Portfolio :=
  t <- load target ;;
  if negb (feq (fsum (Dict.values t)) fone)
  then raise (ValueError "Target allocation percentages must sum to 1.0")
  else
    let stocks := index_stocks all_tradable_stocks in
    h <- match initial_holdings with
         | Some l => ret l
         | None => alloc []
         end ;;
    check_tradable (Dict.keys t) stocks ;;;
    ret {| target_allocation := target;
           stock_objects := stocks;
           holdings := h |}.

(* --------------------------------------------------------------- *)
(** *** [add_position] *)

Definition add_position (self : Portfolio) (s : string) (shares : F)
  : M F unit :=
  if negb (Dict.mem s (stock_objects self))
  then raise (ValueError
         ("Error: Cannot add position for '" ++ s
            ++ "'. It is not a known tradable stock."))
  else if flt fzero shares
  then
    h <- load (holdings self) ;;
    store (holdings self) (Dict.set h s (fadd (Dict.get h s fzero) shares))
  else ret tt.

(* --------------------------------------------------------------- *)
(** *** [get_total_value] *)

Fixpoint total_loop (items : list (string * F)) (stocks : Dict.dict Stock)
    (total_value : F) : M F F :=
  match items with
  | [] => ret total_value
  | (s, shares) :: rest =>
      stock <- getitem stocks s ;;
      total_loop rest stocks
        (fadd total_value (fmul shares (current_price stock)))
  end.

Definition get_total_value (self : Portfolio) : M F F :=
  h <- load (holdings self) ;;
  total_loop h (stock_objects self) fzero.

(* --------------------------------------------------------------- *)
(** *** [get_current_allocation] *)

(** What the method prints, one constructor per [print] call, with the
    numbers each line formats. *)
Inductive printed : Type :=
| PortfolioEmpty                       (* "  Portfolio is currently empty." *)
| TotalLine (total_value : F)          (* "Total Portfolio Value: $..." *)
| PositionLine (s : string) (shares value percentage : F).

(** [<] on the tuples [(symbol, shares)] that [sorted] compares: the first
    components decide unless they are equal. *)
Definition item_lt (a b : string * F) : bool :=
  match String_as_OT.compare (fst a) (fst b) with
  | Lt => true
  | Gt => false
  | Eq => if feq (snd a) (snd b) then false else flt (snd a) (snd b)
  end.

(** [sorted]: a stable sort. *)
Fixpoint insert_item (x : string * F) (l : list (string * F))
  : list (string * F) :=
  match l with
  | [] => [x]
  | y :: l' => if item_lt y x then y :: insert_item x l' else x :: y :: l'
  end.

Definition sorted (l : list (string * F)) : list (string * F) :=
  fold_right insert_item [] l.

(** Line 66: [(value / total_value) * 100 if total_value > 0 else 0]. *)
Definition percentage_of (total_value value : F) : F :=
  if flt fzero total_value
  then fmul (fdiv value total_value) fhundred
  else fzero.

(** The loop of lines 64-68. *)
Fixpoint report_loop (items : list (string * F)) (stocks : Dict.dict Stock)
    (total_value : F) : M F (list printed) :=
  match items with
  | [] => ret []
  | (s, shares) :: rest =>
      stock <- getitem stocks s ;;
      let value := fmul shares (current_price stock) in
      let percentage := percentage_of total_value value in
      lines <- report_loop rest stocks total_value ;;
      ret (if flt fzero percentage
           then PositionLine s shares value percentage :: lines
           else lines)
  end.

(** The symbols of the position lines, in the order printed. *)
Definition listed_symbols (lines : list printed) : list string :=
  flat_map (fun line =>
              match line with
              | PositionLine s _ _ _ => [s]
              | _ => []
              end) lines.

Definition get_current_allocation (self : Portfolio) : M F (list printed) :=
  total_value <- get_total_value self ;;
  if feq total_value fzero
  then ret [PortfolioEmpty]
  else
    h <- load (holdings self) ;;
    lines <- report_loop (sorted h) (stock_objects self) total_value ;;
    ret (TotalLine total_value :: lines).

(* --------------------------------------------------------------- *)
(** *** [create_rebalance_plan] *)

(** [actions[side].append(order)] *)
Definition append_order (actions : Plan) (side : string) (o : Order) : Plan :=
  Dict.set actions side (Dict.get actions side [] ++ [o]).

(** The loop of lines 98-100. *)
Fixpoint backfill (symbols : list string) (target : loc) : M F unit :=
  match symbols with
  | [] => ret tt
  | s :: rest =>
      t <- load target ;;
      (if negb (Dict.mem s t)
       then store target (Dict.set t s fzero)
       else ret tt) ;;;
      backfill rest target
  end.

(** The loop of lines 102-110. *)
Fixpoint plan_loop (items : list (string * F)) (self : Portfolio)
    (total_portfolio_value : F) (actions : Plan) : M F Plan :=
  match items with
  | [] => ret actions
  | (s, target_percent) :: rest =>
      let target_value := fmul total_portfolio_value target_percent in
      h <- load (holdings self) ;;
      stock <- getitem (stock_objects self) s ;;
      let current_value := fmul (Dict.get h s fzero) (current_price stock) in
      let value_difference := fsub target_value current_value in
      plan_loop rest self total_portfolio_value
        (if flt fcent value_difference
         then append_order actions "buy"
                {| order_symbol := s;
                   amount_in_dollars := fround2 value_difference |}
         else if flt value_difference (fneg fcent)
         then append_order actions "sell"
                {| order_symbol := s;
                   amount_in_dollars := fround2 (fabs value_difference) |}
         else actions)
  end.

Definition create_rebalance_plan (self : Portfolio) : M F Plan :=
  total_portfolio_value <- get_total_value self ;;
  let actions : Plan := [("buy", []); ("sell", [])] in
  if feq total_portfolio_value fzero
  then ret actions
  else
    backfill (Dict.keys (stock_objects self)) (target_allocation self) ;;;
    t <- load (target_allocation self) ;;
    plan_loop t self total_portfolio_value actions.

(* --------------------------------------------------------------- *)
(** *** [execute_rebalance] *)

Definition sell_order (self : Portfolio) (order : Order) : M F unit :=
  let s := order_symbol order in
  let amount_to_sell := amount_in_dollars order in
  stock <- getitem (stock_objects self) s ;;
  let price := current_price stock in
  if flt fzero price
  then
    let shares_to_sell := fdiv amount_to_sell price in
    h <- load (holdings self) ;;
    store (holdings self)
      (Dict.set h s (pymax fzero (fsub (Dict.get h s fzero) shares_to_sell)))
  else ret tt.

Definition buy_order (self : Portfolio) (order : Order) : M F unit :=
  let s := order_symbol order in
  let amount_to_buy := amount_in_dollars order in
  stock <- getitem (stock_objects self) s ;;
  let price := current_price stock in
  if flt fzero price
  then
    let shares_to_buy := fdiv amount_to_buy price in
    h <- load (holdings self) ;;
    store (holdings self)
      (Dict.set h s (fadd (Dict.get h s fzero) shares_to_buy))
  else ret tt.

(** [for order in orders: body(order)] *)
Fixpoint for_each {A} (orders : list A) (body : A -> M F unit) : M F unit :=
  match orders with
  | [] => ret tt
  | order :: rest => body order ;;; for_each rest body
  end.

Definition execute_rebalance (self : Portfolio) (plan : Plan) : M F unit :=
  for_each (Dict.get plan "sell" []) (sell_order self) ;;;
  for_each (Dict.get plan "buy" []) (buy_order self).

End Engine.

Arguments Stock : clear implicits.
Arguments Order : clear implicits.
Arguments Plan : clear implicits.
Arguments printed : clear implicits.

(* ================================================================= *)
(** ** Concrete engines *)

(** A heap holding the caller's two dictionaries: the target allocation at
    location 0 and the holdings at location 1. *)
Definition caller_heap {F} (target holdings : Dict.dict F) : heap F :=
  {| cells := fun l =>
       match l with
       | 0 => target
       | 1 => holdings
       | _ => []
       end;
     next := 2 |}.

(** [Portfolio(stocks, target, holdings)] followed by [body], on
    [caller_heap]. *)
Definition session {F} {PF : PyFloat F} {A} (stocks : list (Stock F))
    (target holdings : Dict.dict F) (body : Portfolio -> M F A)
  : result A * heap F :=
  (self <- __init__ stocks 0 (Some 1) ;; body self)
    (caller_heap target holdings).

(** The interpreters the examples run on: binary64 with the plain and with
    the compensated [sum], and exact rationals. *)
Definition py311 : PyFloat float := Float64.Float_PyFloat false.
Definition py312 : PyFloat float := Float64.Float_PyFloat true.
Definition exact : PyFloat Q := Exact.Q_PyFloat.

(** The example of [portfolio.py]'s [__main__] block. *)
Module MainExample.

Definition all_stocks : list (Stock float) :=
  [ {| symbol := "AAPL"; _price := 150 |};
    {| symbol := "META"; _price := 300 |};
    {| symbol := "GOOG"; _price := 135 |};
    {| symbol := "MSFT"; _price := 250 |} ]%float.

Definition initial_holdings : Dict.dict float :=
  [ ("AAPL", 10); ("GOOG", 5); ("MSFT", 8) ]%float.

Definition my_target_allocation : Dict.dict float :=
  [ ("AAPL", 0.50); ("META", 0.30); ("GOOG", 0.20) ]%float.

Definition all_stocks_q : list (Stock Q) :=
  [ {| symbol := "AAPL"; _price := 150 |};
    {| symbol := "META"; _price := 300 |};
    {| symbol := "GOOG"; _price := 135 |};
    {| symbol := "MSFT"; _price := 250 |} ]%Q.

Definition initial_holdings_q : Dict.dict Q :=
  [ ("AAPL", 10); ("GOOG", 5); ("MSFT", 8) ]%Q.

Definition my_target_allocation_q : Dict.dict Q :=
  [ ("AAPL", 0.50); ("META", 0.30); ("GOOG", 0.20) ]%Q.

(** The plan the specification expects. *)
Definition expected_plan : Plan float :=
  [ ("buy",
     [ {| order_symbol := "AAPL"; amount_in_dollars := 587.5 |};
       {| order_symbol := "META"; amount_in_dollars := 1252.5 |};
       {| order_symbol := "GOOG"; amount_in_dollars := 160 |} ]);
    ("sell",
     [ {| order_symbol := "MSFT"; amount_in_dollars := 2000 |} ]) ]%float.

Definition expected_plan_q : Plan Q :=
  [ ("buy",
     [ {| order_symbol := "AAPL"; amount_in_dollars := 587.5 |};
       {| order_symbol := "META"; amount_in_dollars := 1252.5 |};
       {| order_symbol := "GOOG"; amount_in_dollars := 160 |} ]);
    ("sell",
     [ {| order_symbol := "MSFT"; amount_in_dollars := 2000 |} ]) ]%Q.

(** The heap before the constructor runs, and the engine it builds. *)
Definition heap0 : heap float := caller_heap my_target_allocation initial_holdings.

Definition portfolio : @Portfolio float :=
  {| target_allocation := 0;
     stock_objects := index_stocks all_stocks;
     holdings := 1 |}.

End MainExample.

(** Rational amounts are compared in lowest terms. *)
Definition reduced_order (o : Order Q) : Order Q :=
  {| order_symbol := order_symbol o;
     amount_in_dollars := Qred (amount_in_dollars o) |}.

Definition reduced_plan (p : Plan Q) : Plan Q :=
  map (fun side => (fst side, map reduced_order (snd side))) p.

Definition reduced_result (r : result (Plan Q)) : result (Plan Q) :=
  match r with
  | Ok p => Ok (reduced_plan p)
  | Raise e => Raise e
  end.

Definition reduced_value (r : result Q) : result Q :=
  match r with
  | Ok x => Ok (Qred x)
  | Raise e => Raise e
  end.

(** The runs the examples observe. [PF] is the interpreter; every run
    starts with [Portfolio(stocks, target, holdings)] on [caller_heap]
    and reports what the last call answered, together with the caller's
    dictionaries where the example looks at them. *)
Section Observers.

Context {F : Type} (PF : PyFloat F).
Variables (stocks : list (Stock F)) (target held : Dict.dict F).

Definition outcome {A} (run : result A * heap F) : result A * Dict.dict F * Dict.dict F :=
  (fst run, read (snd run) 0, read (snd run) 1).

(** [Portfolio(...)] alone. *)
Definition construct_in : result Portfolio :=
  fst (__init__ stocks 0 (Some 1) (caller_heap target held)).

(** [p.get_total_value()] *)
Definition total_value_in : result F :=
  fst (session stocks target held get_total_value).

(** [p.create_rebalance_plan()] *)
Definition plan_in : result (Plan F) :=
  fst (session stocks target held create_rebalance_plan).

(** [p.add_position(s, shares)]: the answer, then the caller's target and
    holdings dictionaries. *)
Definition deposit_in (s : string) (shares : F)
  : result unit * Dict.dict F * Dict.dict F :=
  outcome (session stocks target held (fun p => add_position p s shares)).

(** The caller assigns [holdings[s] = shares] on its own dictionary, then
    asks [p.get_total_value()]. *)
Definition total_value_after_caller_write_in (s : string) (shares : F)
  : result F :=
  fst (session stocks target held
         (fun p =>
            d <- load 1 ;;
            store 1 (Dict.set d s shares) ;;;
            get_total_value p)).

(** [p.get_current_allocation()] *)
Definition report_in : result (list (printed F)) :=
  fst (session stocks target held get_current_allocation).

(** The symbols that [p.get_current_allocation()] lists. *)
Definition listed_in : list string :=
  match report_in with
  | Ok lines => listed_symbols lines
  | Raise _ => []
  end.

(** [plan = p.create_rebalance_plan(); p.execute_rebalance(plan)]: the
    plan, then the caller's dictionaries. *)
Definition rebalance_in : result (Plan F) * Dict.dict F * Dict.dict F :=
  outcome (session stocks target held
             (fun p =>
                plan <- create_rebalance_plan p ;;
                execute_rebalance p plan ;;;
                ret plan)).

(** A rebalance, then [p.create_rebalance_plan()] again: the second
    plan. *)
Definition second_plan_in : result (Plan F) :=
  fst (session stocks target held
         (fun p =>
            plan <- create_rebalance_plan p ;;
            execute_rebalance p plan ;;;
            create_rebalance_plan p)).

End Observers.

(* ================================================================= *)
(** ** The lines of a report, entry by entry *)

Section Lines.

Context {F : Type} {PF : PyFloat F}.

(** Entries compared by their symbols. *)
Definition key_lt (a b : string * F) : Prop :=
  String_as_OT.lt (fst a) (fst b).

(** The line, if any, that the loop prints for one entry. *)
Definition line_of (stocks : Dict.dict (Stock F)) (total_value : F)
    (item : string * F) : list (printed F) :=
  match Dict.find (fst item) stocks with
  | None => []
  | Some stock =>
      let value := fmul (snd item) (current_price stock) in
      if flt fzero (percentage_of total_value value)
      then [PositionLine (fst item) (snd item) value
              (percentage_of total_value value)]
      else []
  end.

End Lines.

(* ================================================================= *)
(** ** Sequences of operations *)

Section Operations.

Context {F : Type} {PF : PyFloat F}.

(** What a caller may do with an engine, one after the other: deposit,
    ask for a plan, execute a plan the engine returned earlier
    ([ExecutePlan k] executes the [k]-th plan returned so far, which may be
    stale), and execute a plan of the caller's own making. *)
Inductive operation : Type :=
| Deposit (s : string) (shares : F)
| CreatePlan
| ExecutePlan (k : nat)
| ExecuteGiven (plan : Plan F).

(** The heap and the plans returned so far, after the operations. A call
    that raises leaves the heap as the exception found it, and the caller
    goes on. *)
Fixpoint run_operations (self : Portfolio) (ops : list operation)
    (h : heap F) (plans : list (Plan F)) : heap F * list (Plan F) :=
  match ops with
  | [] => (h, plans)
  | Deposit s shares :: rest =>
      run_operations self rest (snd (add_position self s shares h)) plans
  | CreatePlan :: rest =>
      match create_rebalance_plan self h with
      | (Ok plan, h') => run_operations self rest h' (plans ++ [plan])
      | (Raise _, h') => run_operations self rest h' plans
      end
  | ExecutePlan k :: rest =>
      match nth_error plans k with
      | Some plan =>
          run_operations self rest (snd (execute_rebalance self plan h)) plans
      | None => run_operations self rest h plans
      end
  | ExecuteGiven plan :: rest =>
      run_operations self rest (snd (execute_rebalance self plan h)) plans
  end.

End Operations.

Arguments operation : clear implicits.

(** Every share count of a holdings dictionary is at least 0: the test
    [0.0 <= shares], which a NaN does not pass. *)
Definition nonnegative {F} {PF : PyFloat F} (d : Dict.dict F) : Prop :=
  Forall (fun entry => fle fzero (snd entry) = true) d.

(** Every buy order of a plan is for an amount of at least 0 that is not
    infinite. *)
Definition buys_nonnegative (plan : Plan float) : Prop :=
  Forall (fun o => PrimFloat.leb 0 (amount_in_dollars o) = true
                   /\ amount_in_dollars o <> infinity)
         (Dict.get plan "buy" []).

(** The plans of the caller's own making ask to buy finite amounts of at
    least 0. *)
Definition given_plans_nonnegative (ops : list (operation float)) : Prop :=
  Forall (fun op =>
            match op with
            | ExecuteGiven plan => buys_nonnegative plan
            | _ => True
            end) ops.

(** What every buy order of a plan of the engine's own satisfies, and every
    buy order of [buys_nonnegative]: the amount is at least 0, and it is
    infinite only for a stock whose price is not. *)
Definition buy_divides (stocks : Dict.dict (Stock float)) (o : Order float)
  : Prop :=
  PrimFloat.leb 0 (amount_in_dollars o) = true
  /\ (amount_in_dollars o = infinity ->
      forall stock, Dict.find (order_symbol o) stocks = Some stock ->
                    current_price stock <> infinity).

Definition buys_divide (stocks : Dict.dict (Stock float)) (plan : Plan float)
  : Prop :=
  Forall (buy_divides stocks) (Dict.get plan "buy" []).

(* ================================================================= *)
(** ** The orders of a plan, entry by entry *)

Section Planned.

Context {F : Type} {PF : PyFloat F}.

(** [value_difference] of lines 103-105 for one entry of the target
    allocation, when the symbol is in the registry. *)
Definition difference_of (stocks : Dict.dict (Stock F)) (held : Dict.dict F)
    (total : F) (item : string * F) : option F :=
  match Dict.find (fst item) stocks with
  | Some stock =>
      Some (fsub (fmul total (snd item))
                 (fmul (Dict.get held (fst item) fzero) (current_price stock)))
  | None => None
  end.

(** The buy order that lines 107-108 append for the entry, if any. *)
Definition buy_of (stocks : Dict.dict (Stock F)) (held : Dict.dict F)
    (total : F) (item : string * F) : list (Order F) :=
  match difference_of stocks held total item with
  | Some d =>
      if flt fcent d
      then [ {| order_symbol := fst item; amount_in_dollars := fround2 d |} ]
      else []
  | None => []
  end.

(** The sell order that lines 109-110 append for the entry, if any. *)
Definition sell_of (stocks : Dict.dict (Stock F)) (held : Dict.dict F)
    (total : F) (item : string * F) : list (Order F) :=
  match difference_of stocks held total item with
  | Some d =>
      if flt fcent d then []
      else if flt d (fneg fcent)
      then [ {| order_symbol := fst item;
                amount_in_dollars := fround2 (fabs d) |} ]
      else []
  | None => []
  end.

(** The entry of symbol [s] in the holdings once the orders that lines
    107-110 append for it have been carried out by lines 119-135: shares
    bought for the rounded difference are added, shares sold for it are
    taken off down to 0.0 at most, and the entry is left as it is when the
    difference is inside the dead-band or the price is not greater than
    0. *)
Definition position_after (held : Dict.dict F) (total : F) (s : string)
    (fraction price : F) : option F :=
  let shares := Dict.get held s fzero in
  let value_difference := fsub (fmul total fraction) (fmul shares price) in
  if flt fzero price
  then
    if flt fcent value_difference
    then Some (fadd shares (fdiv (fround2 value_difference) price))
    else if flt value_difference (fneg fcent)
    then Some (pymax fzero
                 (fsub shares (fdiv (fround2 (fabs value_difference)) price)))
    else Dict.find s held
  else Dict.find s held.

End Planned.

(* ================================================================= *)
(** ** The specification's wording of the operations *)

(** The definitions of this part are written from the specification, for
    comparison with the methods above. *)
Section SpecWording.

Context {F : Type} {PF : PyFloat F}.

(** The registry symbols that the target allocation [t] lacks, in registry
    order: the entries the backfill step is to insert. *)
Definition missing_from (t : Dict.dict F) (syms : list string) : list string :=
  filter (fun s => negb (Dict.mem s t)) syms.

(** A sell order at a positive price:
    [holdings[symbol] = max(0, holdings.get(symbol, 0) - amount / price)];
    at any other price the order is skipped. *)
Definition spec_sell (price : F) (d : Dict.dict F) (o : Order F) : Dict.dict F :=
  if flt fzero price
  then Dict.set d (order_symbol o)
         (pymax fzero
            (fsub (Dict.get d (order_symbol o) fzero)
                  (fdiv (amount_in_dollars o) price)))
  else d.

(** A buy order at a positive price: [holdings[symbol] += amount / price];
    at any other price the order is skipped. *)
Definition spec_buy (price : F) (d : Dict.dict F) (o : Order F) : Dict.dict F :=
  if flt fzero price
  then Dict.set d (order_symbol o)
         (fadd (Dict.get d (order_symbol o) fzero)
               (fdiv (amount_in_dollars o) price))
  else d.

Inductive side : Type := Sell | Buy.

(** Orders applied one after the other; [PriceOf] of a symbol the registry
    does not list is a hard error, which stops the run where it stands. *)
Fixpoint spec_apply_all (stocks : Dict.dict (Stock F))
    (todo : list (side * Order F)) (d : Dict.dict F)
  : result unit * Dict.dict F :=
  match todo with
  | [] => (Ok tt, d)
  | (sd, o) :: rest =>
      match Dict.find (order_symbol o) stocks with
      | None => (Raise (KeyError (order_symbol o)), d)
      | Some stock =>
          spec_apply_all stocks rest
            (match sd with
             | Sell => spec_sell (current_price stock) d o
             | Buy => spec_buy (current_price stock) d o
             end)
      end
  end.

(** All sell orders first, then all buy orders. *)
Definition spec_execute (stocks : Dict.dict (Stock F)) (plan : Plan F)
    (d : Dict.dict F) : result unit * Dict.dict F :=
  spec_apply_all stocks
    (map (pair Sell) (Dict.get plan "sell" [])
       ++ map (pair Buy) (Dict.get plan "buy" []))
    d.

End SpecWording.

(** The tolerance test the specification asks of the constructor,
    [|sum - 1.0| <= eps]. The source has no such test; it is written here
    from the specification's words, to be compared with the constructor. *)
Definition spec_sum_within {F} (PF : PyFloat F) (eps : F) (target : Dict.dict F)
  : bool :=
  fle (fabs (fsub (fsum (Dict.values target)) fone)) eps.

(** Inputs of the examples that are not in the source. *)
Module Inputs.

(** Holdings in a symbol the registry does not list. *)
Definition unlisted_holdings : Dict.dict float := [ ("TSLA", 1) ]%float.

Definition unlisted_holdings_q : Dict.dict Q := [ ("TSLA", 1) ]%Q.

(** A registry with an instrument priced at zero, held next to a priced
    one. *)
Definition stocks_with_free : list (Stock float) :=
  [ {| symbol := "AAPL"; _price := 150 |};
    {| symbol := "META"; _price := 0 |} ]%float.

Definition all_in_aapl : Dict.dict float := [ ("AAPL", 1) ]%float.

Definition holds_free : Dict.dict float :=
  [ ("META", 5); ("AAPL", 10) ]%float.

Definition stocks_with_free_q : list (Stock Q) :=
  [ {| symbol := "AAPL"; _price := 150 |};
    {| symbol := "META"; _price := 0 |} ]%Q.

Definition all_in_aapl_q : Dict.dict Q := [ ("AAPL", 1) ]%Q.

Definition holds_free_q : Dict.dict Q := [ ("META", 5); ("AAPL", 10) ]%Q.

(** Three instruments at price 1; everything is targeted at the first, and
    the other two are held in amounts under the dead-band. *)
Definition unit_stocks : list (Stock float) :=
  [ {| symbol := "AAPL"; _price := 1 |};
    {| symbol := "META"; _price := 1 |};
    {| symbol := "GOOG"; _price := 1 |} ]%float.

Definition dust_holdings : Dict.dict float :=
  [ ("AAPL", 100); ("META", 0.009); ("GOOG", 0.009) ]%float.

(** Fractions that sum to 1.0 with one of them negative. *)
Definition short_target : Dict.dict float :=
  [ ("AAPL", 1.5); ("META", -0.5) ]%float.

Definition even_holdings : Dict.dict float :=
  [ ("AAPL", 100); ("META", 100) ]%float.

End Inputs.

(** Inputs at the far ends of binary64. *)
Module Extremes.

(** A position of 1e15 at price 1, all of it to go into a stock at
    price 7. *)
Definition sevens : list (Stock float) :=
  [ {| symbol := "A"; _price := 7 |};
    {| symbol := "B"; _price := 1 |} ]%float.

Definition all_in_a : Dict.dict float := [ ("A", 1) ]%float.

Definition holds_b : Dict.dict float := [ ("B", 1e15) ]%float.

(** A position of 1e308 at price 1, half of it to go into a stock at price
    1e-300. *)
Definition pennies : list (Stock float) :=
  [ {| symbol := "A"; _price := 1 |};
    {| symbol := "B"; _price := 1e-300 |} ]%float.

Definition halves : Dict.dict float := [ ("A", 0.5); ("B", 0.5) ]%float.

Definition holds_a : Dict.dict float := [ ("A", 1e308) ]%float.

End Extremes.

(* ================================================================= *)
(** ** Vocabulary of the further properties *)

(** The first symbol of [symbols] that the registry does not list: where
    the loop of [get_total_value] raises [KeyError]. *)
Definition first_unlisted {V} (registry : Dict.dict V) (symbols : list string)
  : option string :=
  List.find (fun s => negb (Dict.mem s registry)) symbols.

(** A plan whose second sell order is on a symbol outside the example's
    registry. *)
Definition plan_with_unlisted_sell : Plan float :=
  [ ("buy", [ {| order_symbol := "META"; amount_in_dollars := 300 |} ]);
    ("sell",
     [ {| order_symbol := "AAPL"; amount_in_dollars := 150 |};
       {| order_symbol := "TSLA"; amount_in_dollars := 10 |};
       {| order_symbol := "GOOG"; amount_in_dollars := 135 |} ]) ]%float.

(* ================================================================= *)
(** ** The callers in [app.py] *)

(** What [app.py] does with integers: [p / 100.0] converts the integer [p]
    to a float, and [int(x)] truncates a float towards zero ([None] where
    Python raises, on an infinity and on NaN). *)
Class PyIntConv (F : Type) : Type := {
  of_int : Z -> F;
  to_int : F -> option Z
}.

#[export] Instance Q_PyIntConv : PyIntConv Q := {|
  of_int := inject_Z;
  to_int := fun x => Some (Z.quot (Qnum x) (Z.pos (Qden x)))
|}.

(** Python converts an integer to the nearest binary64, ties to even (the
    sliders give integers from 0 to 100, far inside the range where the
    conversion is exact and never overflows). *)
Definition float_of_int (p : Z) : float :=
  match p with
  | Z0 => 0%float
  | Z.pos m => SF2Prim (binary_round prec emax false m 0)
  | Z.neg m => SF2Prim (binary_round prec emax true m 0)
  end.

(** [int(x)]: the integer part of a finite float. *)
Definition float_to_int (x : float) : option Z :=
  match Prim2SF x with
  | S754_zero _ => Some 0%Z
  | S754_finite s m e =>
      let v := (if 0 <=? e then Z.pos m * 2 ^ e else Z.pos m / 2 ^ (- e))%Z in
      Some (if s then (- v)%Z else v)
  | _ => None
  end.

#[export] Instance Float_PyIntConv : PyIntConv float := {|
  of_int := float_of_int;
  to_int := float_to_int
|}.

Section App.

Context {F : Type} {PF : PyFloat F} {PI : PyIntConv F}.

(** [st.session_state], with the three keys the script stores. *)
Record SessionState : Type := {
  session_target_allocation : loc;
  session_portfolio : @Portfolio F;
  session_rebalance_plan : option (Plan F)
}.

(** Lines 33-41, run when the session has no portfolio yet: the default
    target allocation is copied, the default holdings are handed over as
    they are. *)
Definition start_session (ALL_STOCKS : list (Stock F))
    (DEFAULT_TARGET_ALLOCATION DEFAULT_INITIAL_HOLDINGS : loc)
  : M F SessionState :=
  d <- load DEFAULT_TARGET_ALLOCATION ;;
  t <- alloc d ;;
  p <- __init__ ALL_STOCKS t (Some DEFAULT_INITIAL_HOLDINGS) ;;
  ret {| session_target_allocation := t;
         session_portfolio := p;
         session_rebalance_plan := None |}.

(** Lines 50-54: one number input per stock of [ALL_STOCKS]; [entered]
    gives what each input holds. *)
Definition share_inputs (ALL_STOCKS : list (Stock F)) (entered : string -> F)
  : Dict.dict F :=
  fold_left (fun d stock => Dict.set d (symbol stock) (entered (symbol stock)))
            ALL_STOCKS [].

(** Lines 56-61, the "Update Portfolio Holdings" button: the answer, the
    session state and the heap it leaves (what was assigned before an
    exception stays assigned). *)
Definition update_portfolio_holdings (ALL_STOCKS : list (Stock F))
    (entered : string -> F) (ss : SessionState) (h : heap F)
  : result unit * SessionState * heap F :=
  match __init__ ALL_STOCKS (session_target_allocation ss) None h with
  | (Raise e, h1) => (Raise e, ss, h1)
  | (Ok p, h1) =>
      let ss1 := {| session_target_allocation := session_target_allocation ss;
                    session_portfolio := p;
                    session_rebalance_plan := session_rebalance_plan ss |} in
      match for_each (share_inputs ALL_STOCKS entered)
              (fun item =>
                 if flt fzero (snd item)
                 then add_position p (fst item) (snd item)
                 else ret tt) h1 with
      | (Raise e, h2) => (Raise e, ss1, h2)
      | (Ok _, h2) =>
          (Ok tt,
           {| session_target_allocation := session_target_allocation ss;
              session_portfolio := p;
              session_rebalance_plan := None |},
           h2)
      end
  end.

(** Line 97: the position a slider starts at, [int(target_pct * 100)]. *)
Definition slider_default (target_pct : F) : option Z :=
  to_int (fmul target_pct fhundred).

(** Line 111: [p / 100.0]. *)
Definition fraction_of (p : Z) : F := fdiv (of_int p) fhundred.

End App.

Arguments SessionState : clear implicits.

(** The constants of [app.py]. *)
Module AppConstants.

Definition ALL_STOCKS : list (Stock float) :=
  [ {| symbol := "AAPL"; _price := 150 |};
    {| symbol := "META"; _price := 300 |};
    {| symbol := "GOOG"; _price := 135 |};
    {| symbol := "MSFT"; _price := 450 |};
    {| symbol := "NVDA"; _price := 130 |} ]%float.

Definition DEFAULT_TARGET_ALLOCATION : Dict.dict float :=
  [ ("AAPL", 0.30); ("META", 0.20); ("GOOG", 0.20); ("MSFT", 0.20);
    ("NVDA", 0.10) ]%float.

Definition DEFAULT_INITIAL_HOLDINGS : Dict.dict float :=
  [ ("AAPL", 10); ("META", 5) ]%float.

(** The module's two dictionaries, at locations 0 and 1. *)
Definition module_heap : heap float :=
  caller_heap DEFAULT_TARGET_ALLOCATION DEFAULT_INITIAL_HOLDINGS.

(** Slider positions that add up to 100, and the fractions [p / 100.0]
    that line 111 makes of them. *)
Definition sliders : Dict.dict Z :=
  [ ("AAPL", 4); ("META", 6); ("GOOG", 12); ("MSFT", 57); ("NVDA", 21) ]%Z.

Definition slider_fractions : Dict.dict float :=
  [ ("AAPL", 0.04); ("META", 0.06); ("GOOG", 0.12); ("MSFT", 0.57);
    ("NVDA", 0.21) ]%float.

End AppConstants.

(* ================================================================= *)
(** * Properties *)

(* ----------------------------------------------------------------- *)
(** ** Comparison with zero in both arithmetics *)

#[export] Instance Q_PyFloatOrder : @PyFloatOrder Q Exact.Q_PyFloat.
Proof.
  assert (Pos : forall x : Q, negb (Qle_bool x 0) = true -> (0 <= x)%Q).
  { intros x H. apply negb_true_iff in H.
    destruct (Qlt_le_dec 0 x) as [L|L]; [now apply Qlt_le_weak|].
    apply Qle_bool_iff in L. congruence. }
  split; cbn; unfold Exact.ltb; try reflexivity; intros x H.
  - apply negb_false_iff, Qle_bool_iff, Pos, H.
  - apply Qle_bool_iff, Pos, H.
  - apply negb_false_iff. exact H.
Qed.

Lemma Float_PyFloatOrder (compensated : bool) :
  @PyFloatOrder float (Float64.Float_PyFloat compensated).
Proof.
  split; cbn; try reflexivity; intros x;
    rewrite ?ltb_spec, ?leb_spec;
    change (Prim2SF 0%float) with (S754_zero false);
    destruct (Prim2SF x) as [s|s| |s m e]; try destruct s; cbn; congruence.
Qed.

(* ----------------------------------------------------------------- *)
(** ** Dictionaries *)

Section DictFacts.

Context {V : Type}.
Implicit Types (d : Dict.dict V) (k : string) (v : V).

Lemma find_set_same d k v : Dict.find k (Dict.set d k v) = Some v.
Proof.
  induction d as [|[k' v'] d IH]; cbn.
  - now rewrite String.eqb_refl.
  - destruct (String.eqb k k') eqn:E; cbn; rewrite E; auto.
Qed.

Lemma find_set_other d k k' v :
  k' <> k -> Dict.find k' (Dict.set d k v) = Dict.find k' d.
Proof.
  intros N. induction d as [|[k0 v0] d IH]; cbn.
  - apply String.eqb_neq in N. now rewrite N.
  - destruct (String.eqb k k0) eqn:E; cbn.
    + apply String.eqb_eq in E. subst k0.
      apply String.eqb_neq in N. now rewrite N.
    + destruct (String.eqb k' k0); auto.
Qed.

Lemma get_set_same d k v dflt : Dict.get (Dict.set d k v) k dflt = v.
Proof. unfold Dict.get. now rewrite find_set_same. Qed.

Lemma get_set_other d k k' v dflt :
  k' <> k -> Dict.get (Dict.set d k v) k' dflt = Dict.get d k' dflt.
Proof. intros N. unfold Dict.get. now rewrite find_set_other. Qed.

Lemma mem_set_same d k v : Dict.mem k (Dict.set d k v) = true.
Proof. unfold Dict.mem. now rewrite find_set_same. Qed.

Lemma mem_set_other d k k' v :
  k' <> k -> Dict.mem k' (Dict.set d k v) = Dict.mem k' d.
Proof. intros N. unfold Dict.mem. now rewrite find_set_other. Qed.

Lemma mem_set_mono d k k' v :
  Dict.mem k' d = true -> Dict.mem k' (Dict.set d k v) = true.
Proof.
  intros E. destruct (string_dec k' k) as [->|N].
  - apply mem_set_same.
  - now rewrite mem_set_other.
Qed.

(** Assigning to a new key appends the entry. *)
Lemma set_new d k v : Dict.mem k d = false -> Dict.set d k v = d ++ [(k, v)].
Proof.
  unfold Dict.mem. induction d as [|[k' v'] d IH]; cbn; auto.
  destruct (String.eqb k k'); [discriminate|].
  intros E. now rewrite IH.
Qed.

(** Assigning to a present key keeps the keys and their order. *)
Lemma keys_set_mem d k v :
  Dict.mem k d = true -> Dict.keys (Dict.set d k v) = Dict.keys d.
Proof.
  unfold Dict.mem, Dict.keys. induction d as [|[k' v'] d IH]; cbn.
  - discriminate.
  - destruct (String.eqb k k'); cbn; auto.
    intros E. now rewrite IH.
Qed.

Lemma find_some_in d k v : Dict.find k d = Some v -> In (k, v) d.
Proof.
  induction d as [|[k' v'] d IH]; cbn; [discriminate|].
  destruct (String.eqb k k') eqn:E.
  - apply String.eqb_eq in E. intros [= ->]. subst. now left.
  - intros Hf. right. auto.
Qed.

Lemma find_none_notin d k : Dict.find k d = None <-> ~ In k (Dict.keys d).
Proof.
  unfold Dict.keys. induction d as [|[k' v'] d IH]; cbn.
  - tauto.
  - destruct (String.eqb k k') eqn:E.
    + apply String.eqb_eq in E. subst. split; [discriminate|]. tauto.
    + apply String.eqb_neq in E. rewrite IH. split; intros N.
      * intros [->|I]; tauto.
      * tauto.
Qed.

Lemma mem_in_keys d k : Dict.mem k d = true <-> In k (Dict.keys d).
Proof.
  unfold Dict.mem. destruct (Dict.find k d) eqn:E.
  - split; auto. intros _. apply find_some_in in E.
    apply (in_map fst) in E. exact E.
  - apply find_none_notin in E. split; [discriminate|tauto].
Qed.

Lemma mem_false_notin d k : Dict.mem k d = false <-> ~ In k (Dict.keys d).
Proof.
  rewrite <- mem_in_keys. destruct (Dict.mem k d); split; congruence.
Qed.

Lemma in_find d k v : Dict.wf d -> In (k, v) d -> Dict.find k d = Some v.
Proof.
  unfold Dict.wf, Dict.keys. induction d as [|[k' v'] d IH]; cbn; [tauto|].
  intros W. inversion W as [|? ? N W']; subst.
  intros [[= -> ->]|I].
  - now rewrite String.eqb_refl.
  - destruct (String.eqb k k') eqn:E; auto.
    apply String.eqb_eq in E. subst. exfalso. apply N.
    apply (in_map fst) in I. exact I.
Qed.

Lemma wf_set d k v : Dict.wf d -> Dict.wf (Dict.set d k v).
Proof.
  intros W. destruct (Dict.mem k d) eqn:E.
  - unfold Dict.wf. now rewrite keys_set_mem.
  - rewrite set_new by exact E. unfold Dict.wf, Dict.keys in *.
    rewrite map_app. cbn. apply mem_false_notin in E.
    apply NoDup_app; auto.
    + repeat constructor. tauto.
    + intros x I [<-|[]]. tauto.
Qed.

Lemma keys_set_subset d (s k : string) v :
  In k (Dict.keys (Dict.set d s v)) -> k = s \/ In k (Dict.keys d).
Proof.
  intros I. destruct (string_dec k s) as [E|N]; [now left|right].
  apply mem_in_keys. apply mem_in_keys in I.
  now rewrite mem_set_other in I.
Qed.

End DictFacts.

(** The constructor's dictionary comprehension builds a dictionary. *)
Lemma index_stocks_wf {F} (l : list (Stock F)) : Dict.wf (index_stocks l).
Proof.
  unfold index_stocks.
  assert (G : forall d, Dict.wf d ->
            Dict.wf (fold_left (fun d s => Dict.set d (symbol s) s) l d)).
  { induction l as [|a l IH]; cbn; auto. intros d W. apply IH, wf_set, W. }
  apply G. constructor.
Qed.

(* ----------------------------------------------------------------- *)
(** ** The example of the source and of the specification *)

(** C1. On the registry {AAPL:150, META:300, GOOG:135, MSFT:250} with
    holdings {AAPL:10, GOOG:5, MSFT:8} and target {AAPL:0.50, META:0.30,
    GOOG:0.20}, [get_total_value] returns 4175 and [create_rebalance_plan]
    returns the plan with buy list [AAPL 587.50; META 1252.50; GOOG 160.00]
    and sell list [MSFT 2000.00], in those orders: in binary64 under either
    [sum], bit for bit, and in exact arithmetic. *)
Theorem main_example_plan :
  (total_value_in py311 MainExample.all_stocks
     MainExample.my_target_allocation MainExample.initial_holdings
   = Ok 4175%float
   /\ plan_in py311 MainExample.all_stocks
        MainExample.my_target_allocation MainExample.initial_holdings
      = Ok MainExample.expected_plan)
  /\ (total_value_in py312 MainExample.all_stocks
        MainExample.my_target_allocation MainExample.initial_holdings
      = Ok 4175%float
      /\ plan_in py312 MainExample.all_stocks
           MainExample.my_target_allocation MainExample.initial_holdings
         = Ok MainExample.expected_plan)
  /\ (reduced_value
        (total_value_in exact MainExample.all_stocks_q
           MainExample.my_target_allocation_q MainExample.initial_holdings_q)
      = Ok 4175%Q
      /\ reduced_result
           (plan_in exact MainExample.all_stocks_q
              MainExample.my_target_allocation_q
              MainExample.initial_holdings_q)
         = Ok (reduced_plan MainExample.expected_plan_q)).
Proof. repeat split; vm_compute; reflexivity. Qed.

(* ----------------------------------------------------------------- *)
(** ** The constructor *)

Ltac run_monad :=
  unfold bind, ret, raise, load, store, getitem in *; cbn in *.

Lemma check_tradable_ok {F} (stocks : Dict.dict (Stock F)) (syms : list string)
    (h : heap F) :
  forallb (fun s => Dict.mem s stocks) syms = true ->
  check_tradable syms stocks h = (Ok tt, h).
Proof.
  induction syms as [|s syms IH]; cbn; [reflexivity|].
  intros E. apply andb_true_iff in E as [E1 E2]. rewrite E1. cbn. auto.
Qed.

Lemma check_tradable_raises {F} (stocks : Dict.dict (Stock F))
    (syms : list string) (h : heap F) :
  forallb (fun s => Dict.mem s stocks) syms = false ->
  exists s,
    check_tradable syms stocks h
    = (Raise (ValueError
         ("Stock '" ++ s ++ "' in target allocation is not in tradable stocks list.")),
       h)
    /\ In s syms /\ Dict.mem s stocks = false.
Proof.
  induction syms as [|s syms IH]; cbn; [discriminate|].
  destruct (Dict.mem s stocks) eqn:E; cbn.
  - intros E2. destruct (IH E2) as (s' & R & I & N). exists s'. auto.
  - intros _. exists s. auto.
Qed.

(** The constructor's checks, case by case. It compares the sum of the
    fractions with 1.0 by [==], with no tolerance: it raises the "must sum to 1.0"
    [ValueError], leaving the heap as it was, exactly when the sum is not
    equal to 1.0; when the sum is equal to 1.0 it succeeds if every symbol
    of the target allocation is in the registry (storing the caller's
    target dictionary, and the caller's holdings dictionary or a new empty
    one), and raises the "not in tradable stocks list" [ValueError] for a
    symbol of the target that is not. *)
Theorem init_sum_check {F} {PF : PyFloat F} (all_tradable_stocks : list (Stock F))
    (target : loc) (initial_holdings : option loc) (h : heap F) :
  let t := read h target in
  let listed :=
    forallb (fun s => Dict.mem s (index_stocks all_tradable_stocks))
            (Dict.keys t) in
  (feq (fsum (Dict.values t)) fone = false ->
   __init__ all_tradable_stocks target initial_holdings h
   = (Raise (ValueError "Target allocation percentages must sum to 1.0"), h))
  /\ (feq (fsum (Dict.values t)) fone = true -> listed = true ->
      exists self h',
        __init__ all_tradable_stocks target initial_holdings h = (Ok self, h')
        /\ target_allocation self = target
        /\ stock_objects self = index_stocks all_tradable_stocks
        /\ match initial_holdings with
           | Some l => holdings self = l /\ h' = h
           | None =>
               holdings self = next h
               /\ read h' (next h) = []
               /\ forall l, l <> next h -> read h' l = read h l
           end)
  /\ (feq (fsum (Dict.values t)) fone = true -> listed = false ->
      exists s h',
        __init__ all_tradable_stocks target initial_holdings h
        = (Raise (ValueError
             ("Stock '" ++ s
                ++ "' in target allocation is not in tradable stocks list.")),
           h')
        /\ In s (Dict.keys t)
        /\ Dict.mem s (index_stocks all_tradable_stocks) = false).
Proof.
  cbv zeta. unfold __init__. repeat split.
  - intros E. run_monad. now rewrite E.
  - intros E L. run_monad. rewrite E. cbn.
    destruct initial_holdings as [l|]; cbn.
    + rewrite check_tradable_ok by exact L. eauto 10.
    + unfold alloc. rewrite check_tradable_ok by exact L.
      eexists _, _. repeat split; cbn.
      * now rewrite Nat.eqb_refl.
      * intros l N. apply Nat.eqb_neq in N. unfold read. cbn. now rewrite N.
  - intros E L. run_monad. rewrite E. cbn.
    destruct initial_holdings as [l|]; cbn; unfold alloc.
    + destruct (check_tradable_raises _ _ h L) as (s & R & I & N).
      rewrite R. exists s, h. auto.
    + match goal with
      | |- context [check_tradable _ _ ?h0] =>
          destruct (check_tradable_raises _ _ h0 L) as (s & R & I & N);
          rewrite R; exists s, h0; auto
      end.
Qed.

(** C3. The comparison of line 31 is [==] on the binary64 sum, so the
    constructor turns down allocations whose fractions add up to 1 as
    decimals and to 0.9999999999999999 as floats, well within 1e-9 of 1.0,
    with every symbol in the registry. Two that [app.py] itself builds:
    its [DEFAULT_TARGET_ALLOCATION] (0.30, 0.20, 0.20, 0.20, 0.10), under
    the plain [sum]; and the fractions that its line 111 makes of the
    slider positions 4, 6, 12, 57 and 21, which total 100, under the plain
    and under the compensated [sum]. *)
Theorem init_rejects_unit_sums :
  (@fsum float py311 (Dict.values AppConstants.DEFAULT_TARGET_ALLOCATION)
   = 0.9999999999999999%float
   /\ spec_sum_within py311 1e-9%float AppConstants.DEFAULT_TARGET_ALLOCATION
      = true
   /\ forallb (fun s => Dict.mem s (index_stocks AppConstants.ALL_STOCKS))
              (Dict.keys AppConstants.DEFAULT_TARGET_ALLOCATION) = true
   /\ construct_in py311 AppConstants.ALL_STOCKS
        AppConstants.DEFAULT_TARGET_ALLOCATION
        AppConstants.DEFAULT_INITIAL_HOLDINGS
      = Raise (ValueError "Target allocation percentages must sum to 1.0"))
  /\ fold_left Z.add (Dict.values AppConstants.sliders) 0%Z = 100%Z
  /\ forall PF, In PF [py311; py312] ->
       map (fun item => (fst item, @fraction_of float PF _ (snd item)))
           AppConstants.sliders
       = AppConstants.slider_fractions
       /\ @fsum float PF (Dict.values AppConstants.slider_fractions)
          = 0.9999999999999999%float
       /\ spec_sum_within PF 1e-9%float AppConstants.slider_fractions = true
       /\ forallb (fun s => Dict.mem s (index_stocks AppConstants.ALL_STOCKS))
                  (Dict.keys AppConstants.slider_fractions) = true
       /\ construct_in PF AppConstants.ALL_STOCKS
            AppConstants.slider_fractions
            AppConstants.DEFAULT_INITIAL_HOLDINGS
          = Raise (ValueError "Target allocation percentages must sum to 1.0").
Proof.
  split; [repeat split; vm_compute; reflexivity|].
  split; [reflexivity|].
  intros P [<-|[<-|[]]]; repeat split; vm_compute; reflexivity.
Qed.

(** C10. The constructor does not look at the symbols of the holdings it is
    given: with holdings {TSLA: 1}, a symbol the registry does not list,
    and the valid target of the example, construction succeeds, and the
    later [get_total_value] and [create_rebalance_plan] raise the [KeyError]
    of the subscript [self.stock_objects[symbol]]. *)
Theorem unlisted_holdings_fail_late :
  Dict.mem "TSLA" (index_stocks MainExample.all_stocks) = false
  /\ ((exists self,
         construct_in py311 MainExample.all_stocks
           MainExample.my_target_allocation Inputs.unlisted_holdings
         = Ok self)
      /\ total_value_in py311 MainExample.all_stocks
           MainExample.my_target_allocation Inputs.unlisted_holdings
         = Raise (KeyError "TSLA")
      /\ plan_in py311 MainExample.all_stocks
           MainExample.my_target_allocation Inputs.unlisted_holdings
         = Raise (KeyError "TSLA"))
  /\ ((exists self,
         construct_in py312 MainExample.all_stocks
           MainExample.my_target_allocation Inputs.unlisted_holdings
         = Ok self)
      /\ total_value_in py312 MainExample.all_stocks
           MainExample.my_target_allocation Inputs.unlisted_holdings
         = Raise (KeyError "TSLA")
      /\ plan_in py312 MainExample.all_stocks
           MainExample.my_target_allocation Inputs.unlisted_holdings
         = Raise (KeyError "TSLA"))
  /\ ((exists self,
         construct_in exact MainExample.all_stocks_q
           MainExample.my_target_allocation_q Inputs.unlisted_holdings_q
         = Ok self)
      /\ total_value_in exact MainExample.all_stocks_q
           MainExample.my_target_allocation_q Inputs.unlisted_holdings_q
         = Raise (KeyError "TSLA")
      /\ plan_in exact MainExample.all_stocks_q
           MainExample.my_target_allocation_q Inputs.unlisted_holdings_q
         = Raise (KeyError "TSLA")).
Proof.
  repeat split; try (eexists; vm_compute; reflexivity); vm_compute; reflexivity.
Qed.

(* ----------------------------------------------------------------- *)
(** ** Deposits *)

(** C5 (amended). [add_position] looks the symbol up first: for a symbol
    that is not in the registry it raises [ValueError] whatever the share
    amount, and the heap is as before; for a registry symbol and a share
    amount that is not greater than 0 it returns without writing; otherwise
    it assigns [holdings.get(symbol, 0.0) + shares] to [holdings[symbol]],
    which leaves every other entry as it was and appends the entry when the
    symbol was not held. *)
Theorem add_position_cases {F} {PF : PyFloat F} (self : Portfolio)
    (s : string) (shares : F) (h : heap F) :
  let held := read h (holdings self) in
  let held' := Dict.set held s (fadd (Dict.get held s fzero) shares) in
  (Dict.mem s (stock_objects self) = false ->
   add_position self s shares h
   = (Raise (ValueError
        ("Error: Cannot add position for '" ++ s
           ++ "'. It is not a known tradable stock.")),
      h))
  /\ (Dict.mem s (stock_objects self) = true -> flt fzero shares = false ->
      add_position self s shares h = (Ok tt, h))
  /\ (Dict.mem s (stock_objects self) = true -> flt fzero shares = true ->
      add_position self s shares h = (Ok tt, write h (holdings self) held')
      /\ Dict.find s held' = Some (fadd (Dict.get held s fzero) shares)
      /\ (forall k, k <> s -> Dict.find k held' = Dict.find k held)
      /\ (Dict.mem s held = true -> Dict.keys held' = Dict.keys held)
      /\ (Dict.mem s held = false ->
          held' = held ++ [(s, fadd fzero shares)])).
Proof.
  cbv zeta. unfold add_position. split; [|split].
  - intros E. now rewrite E.
  - intros E1 E2. now rewrite E1, E2.
  - intros E1 E2. rewrite E1, E2. repeat split.
    + apply find_set_same.
    + intros k N. now apply find_set_other.
    + intros E. now apply keys_set_mem.
    + intros E. rewrite set_new by exact E.
      unfold Dict.get, Dict.mem in *.
      destruct (Dict.find s (read h (holdings self)));
        [discriminate|reflexivity].
Qed.

(** C5, the claim as stated fails: a deposit of 0 shares, or of -5, in a
    symbol the registry does not list is not a silent no-op: it raises
    [ValueError] (the dictionaries are as before). *)
Lemma deposit_unknown_nonpositive_raises :
  (deposit_in py311 MainExample.all_stocks MainExample.my_target_allocation
     MainExample.initial_holdings "TSLA" 0%float
   = (Raise (ValueError
        "Error: Cannot add position for 'TSLA'. It is not a known tradable stock."),
      MainExample.my_target_allocation, MainExample.initial_holdings)
   /\ deposit_in py311 MainExample.all_stocks MainExample.my_target_allocation
        MainExample.initial_holdings "TSLA" (-5)%float
      = (Raise (ValueError
           "Error: Cannot add position for 'TSLA'. It is not a known tradable stock."),
         MainExample.my_target_allocation, MainExample.initial_holdings))
  /\ (deposit_in py312 MainExample.all_stocks MainExample.my_target_allocation
        MainExample.initial_holdings "TSLA" 0%float
      = (Raise (ValueError
           "Error: Cannot add position for 'TSLA'. It is not a known tradable stock."),
         MainExample.my_target_allocation, MainExample.initial_holdings)
      /\ deposit_in py312 MainExample.all_stocks
           MainExample.my_target_allocation MainExample.initial_holdings
           "TSLA" (-5)%float
         = (Raise (ValueError
              "Error: Cannot add position for 'TSLA'. It is not a known tradable stock."),
            MainExample.my_target_allocation, MainExample.initial_holdings))
  /\ deposit_in exact MainExample.all_stocks_q
       MainExample.my_target_allocation_q MainExample.initial_holdings_q
       "TSLA" 0%Q
     = (Raise (ValueError
          "Error: Cannot add position for 'TSLA'. It is not a known tradable stock."),
        MainExample.my_target_allocation_q, MainExample.initial_holdings_q).
Proof. repeat split; vm_compute; reflexivity. Qed.

(* ----------------------------------------------------------------- *)
(** ** Heap facts *)

Lemma read_write_same {F} (h : heap F) (l : loc) (d : Dict.dict F) :
  read (write h l d) l = d.
Proof. unfold read, write. cbn. now rewrite Nat.eqb_refl. Qed.

Lemma read_write_other {F} (h : heap F) (l l' : loc) (d : Dict.dict F) :
  l' <> l -> read (write h l d) l' = read h l'.
Proof.
  intros N. unfold read, write. cbn. apply Nat.eqb_neq in N. now rewrite N.
Qed.

(** The loops that only read leave the heap as it is. *)
Lemma total_loop_heap {F} {PF : PyFloat F} (items : list (string * F))
    (stocks : Dict.dict (Stock F)) (acc : F) (h : heap F) :
  snd (total_loop items stocks acc h) = h.
Proof.
  revert acc. induction items as [|[s x] items IH]; intros acc; cbn; auto.
  run_monad. destruct (Dict.find s stocks); cbn; auto.
Qed.

Lemma get_total_value_heap {F} {PF : PyFloat F} (self : Portfolio) (h : heap F) :
  snd (get_total_value self h) = h.
Proof. unfold get_total_value. run_monad. apply total_loop_heap. Qed.

Lemma get_total_value_eq {F} {PF : PyFloat F} (self : Portfolio) (h : heap F) :
  get_total_value self h = (fst (get_total_value self h), h).
Proof.
  rewrite <- (get_total_value_heap self h) at 3.
  now destruct (get_total_value self h).
Qed.

Lemma plan_loop_heap {F} {PF : PyFloat F} (items : list (string * F))
    (self : Portfolio) (total : F) (actions : Plan F) (h : heap F) :
  snd (plan_loop items self total actions h) = h.
Proof.
  revert actions. induction items as [|[s x] items IH]; intros actions; cbn; auto.
  run_monad. destruct (Dict.find s (stock_objects self)); cbn; auto.
Qed.

(* ----------------------------------------------------------------- *)
(** ** Backfilling the target allocation *)

Section Backfill.

Context {F : Type} {PF : PyFloat F}.

Lemma backfill_ok (syms : list string) (target : loc) (h : heap F) :
  fst (backfill syms target h) = Ok tt.
Proof.
  revert h. induction syms as [|s syms IH]; intros h; cbn; auto.
  run_monad. destruct (Dict.mem s (read h target)); cbn; apply IH.
Qed.

Lemma backfill_frame (syms : list string) (target : loc) (h : heap F) (l : loc) :
  l <> target -> read (snd (backfill syms target h)) l = read h l.
Proof.
  intros N. revert h. induction syms as [|s syms IH]; intros h; cbn; auto.
  run_monad. destruct (Dict.mem s (read h target)); cbn; rewrite IH; auto.
  now apply read_write_other.
Qed.

Lemma backfill_target (syms : list string) (target : loc) (h : heap F) :
  NoDup syms ->
  read (snd (backfill syms target h)) target
  = read h target
      ++ map (fun s => (s, fzero)) (missing_from (read h target) syms).
Proof.
  intros ND. revert h.
  induction ND as [|s syms NI ND IH]; intros h; cbn.
  - now rewrite app_nil_r.
  - run_monad. destruct (Dict.mem s (read h target)) eqn:E; cbn.
    + apply IH.
    + rewrite IH, read_write_same, set_new by exact E.
      rewrite <- app_assoc. cbn. do 3 f_equal.
      apply filter_ext_in. intros s' I. f_equal.
      rewrite <- set_new by exact E. apply mem_set_other.
      intros ->. contradiction.
Qed.

(** Once every symbol is present the loop writes nothing. *)
Lemma backfill_noop (syms : list string) (target : loc) (h : heap F) :
  (forall s, In s syms -> Dict.mem s (read h target) = true) ->
  backfill syms target h = (Ok tt, h).
Proof.
  induction syms as [|s syms IH]; intros A; cbn; auto.
  run_monad. rewrite (A s) by now left. cbn. apply IH.
  intros s' I. apply A. now right.
Qed.

Lemma mem_app_left (t t' : Dict.dict F) (s : string) :
  Dict.mem s t = true -> Dict.mem s (t ++ t') = true.
Proof.
  rewrite !mem_in_keys. unfold Dict.keys. rewrite map_app, in_app_iff. tauto.
Qed.

Lemma mem_backfilled (t : Dict.dict F) (syms : list string) (s : string) :
  In s syms ->
  Dict.mem s (t ++ map (fun s => (s, fzero)) (missing_from t syms)) = true.
Proof.
  intros I. destruct (Dict.mem s t) eqn:E.
  - now apply mem_app_left.
  - apply mem_in_keys. unfold Dict.keys. rewrite map_app, in_app_iff. right.
    rewrite map_map. cbn. rewrite map_id. apply filter_In. now rewrite E.
Qed.

(** [create_rebalance_plan], step by step. *)
Lemma create_rebalance_plan_steps (self : Portfolio) (h : heap F) :
  create_rebalance_plan self h
  = match fst (get_total_value self h) with
    | Raise e => (Raise e, h)
    | Ok total =>
        if feq total fzero
        then (Ok [("buy", []); ("sell", [])], h)
        else
          let h1 := snd (backfill (Dict.keys (stock_objects self))
                           (target_allocation self) h) in
          plan_loop (read h1 (target_allocation self)) self total
            [("buy", []); ("sell", [])] h1
    end.
Proof.
  unfold create_rebalance_plan, bind at 1.
  rewrite (get_total_value_eq self h).
  destruct (fst (get_total_value self h)) as [total|e]; [|reflexivity].
  cbn [fst]. destruct (feq total fzero); [reflexivity|].
  unfold bind at 1.
  pose proof (backfill_ok (Dict.keys (stock_objects self))
                (target_allocation self) h) as B.
  destruct (backfill _ _ h) as [[[]|e] h1]; cbn in B; [|discriminate].
  reflexivity.
Qed.

End Backfill.

(** C4. When [get_total_value] is non-zero, [create_rebalance_plan] leaves
    in the engine's stored target allocation the entries it had, in their
    order, followed by an entry with fraction 0.0 for each registry symbol
    that was missing, in registry order; afterwards every registry symbol has
    an entry; no other object is written; and a second call writes
    nothing. *)
Theorem create_plan_backfills_target {F} {PF : PyFloat F} (self : Portfolio)
    (h : heap F) (total : F) :
  Dict.wf (stock_objects self) ->
  fst (get_total_value self h) = Ok total ->
  feq total fzero = false ->
  let t := read h (target_allocation self) in
  let h1 := snd (create_rebalance_plan self h) in
  read h1 (target_allocation self)
  = t ++ map (fun s => (s, fzero))
           (missing_from t (Dict.keys (stock_objects self)))
  /\ (forall s, Dict.mem s (stock_objects self) = true ->
                Dict.mem s (read h1 (target_allocation self)) = true)
  /\ (forall l, l <> target_allocation self -> read h1 l = read h l)
  /\ snd (create_rebalance_plan self h1) = h1.
Proof.
  intros W T NZ. cbv zeta.
  assert (H1 : snd (create_rebalance_plan self h)
               = snd (backfill (Dict.keys (stock_objects self))
                               (target_allocation self) h)).
  { unfold create_rebalance_plan, bind at 1.
    rewrite (get_total_value_eq self h), T, NZ.
    unfold bind at 1.
    destruct (backfill _ _ h) as [[[]|e] h'] eqn:B; cbn; [|reflexivity].
    run_monad. apply plan_loop_heap. }
  rewrite H1.
  assert (A : forall s, Dict.mem s (stock_objects self) = true ->
     Dict.mem s
       (read (snd (backfill (Dict.keys (stock_objects self))
                            (target_allocation self) h))
             (target_allocation self)) = true).
  { intros s M. rewrite backfill_target by exact W.
    apply mem_backfilled. now apply mem_in_keys. }
  repeat split.
  - now apply backfill_target.
  - exact A.
  - intros l N. now apply backfill_frame.
  - set (h1 := snd (backfill _ _ h)) in *.
    unfold create_rebalance_plan, bind at 1.
    rewrite (get_total_value_eq self h1).
    destruct (fst (get_total_value self h1)) as [total'|e]; [|reflexivity].
    destruct (feq total' fzero); [reflexivity|].
    unfold bind at 1. rewrite backfill_noop.
    + run_monad. apply plan_loop_heap.
    + intros s I. apply A. now apply mem_in_keys.
Qed.

Lemma create_plan_backfills_target_witness :
  read (snd (@create_rebalance_plan float py311 MainExample.portfolio
               MainExample.heap0)) 0
  = MainExample.my_target_allocation ++ [("MSFT", 0%float)].
Proof.
  exact (proj1 (@create_plan_backfills_target float py311
                  MainExample.portfolio MainExample.heap0 4175%float
                  (index_stocks_wf MainExample.all_stocks)
                  (eq_refl (Ok 4175%float)) (eq_refl false))).
Defined.

(* ----------------------------------------------------------------- *)
(** ** Executing a plan *)

Section Execute.

Context {F : Type} {PF : PyFloat F}.

(** One loop of [execute_rebalance] against the specification's run over
    the same orders. *)
Lemma for_each_orders (self : Portfolio) (sd : side) (orders : list (Order F))
    (h : heap F) :
  let body := match sd with
              | Sell => sell_order self
              | Buy => buy_order self
              end in
  let run := for_each orders body h in
  let spec := spec_apply_all (stock_objects self) (map (pair sd) orders)
                (read h (holdings self)) in
  fst run = fst spec
  /\ read (snd run) (holdings self) = snd spec
  /\ (forall l, l <> holdings self -> read (snd run) l = read h l).
Proof.
  cbv zeta. revert h.
  induction orders as [|o orders IH]; intros h; cbn; [auto|].
  unfold bind.
  assert (Step :
    match sd with Sell => sell_order self | Buy => buy_order self end o h
    = match Dict.find (order_symbol o) (stock_objects self) with
      | None => (Raise (KeyError (order_symbol o)), h)
      | Some stock =>
          (Ok tt,
           if flt fzero (current_price stock)
           then write h (holdings self)
                  (match sd with
                   | Sell => spec_sell (current_price stock)
                               (read h (holdings self)) o
                   | Buy => spec_buy (current_price stock)
                              (read h (holdings self)) o
                   end)
           else h)
      end).
  { destruct sd; unfold sell_order, buy_order, spec_sell, spec_buy; run_monad;
      destruct (Dict.find (order_symbol o) (stock_objects self)) as [st|];
      cbn; auto; destruct (flt fzero (current_price st)); reflexivity. }
  rewrite Step.
  destruct (Dict.find (order_symbol o) (stock_objects self)) as [st|]; cbn;
    [|auto].
  set (h1 := if flt fzero (current_price st) then _ else h).
  assert (R1 : read h1 (holdings self)
               = match sd with
                 | Sell => spec_sell (current_price st) (read h (holdings self)) o
                 | Buy => spec_buy (current_price st) (read h (holdings self)) o
                 end).
  { subst h1. destruct sd; unfold spec_sell, spec_buy;
      destruct (flt fzero (current_price st));
      rewrite ?read_write_same; reflexivity. }
  assert (Fr : forall l, l <> holdings self -> read h1 l = read h l).
  { intros l N. subst h1. destruct (flt fzero (current_price st)); auto.
    now apply read_write_other. }
  destruct (IH h1) as (A & B & C). rewrite <- R1. repeat split; auto.
  intros l N. rewrite C, Fr; auto.
Qed.

Lemma spec_apply_all_app (stocks : Dict.dict (Stock F))
    (xs ys : list (side * Order F)) (d : Dict.dict F) :
  spec_apply_all stocks (xs ++ ys) d
  = match spec_apply_all stocks xs d with
    | (Ok _, d') => spec_apply_all stocks ys d'
    | (Raise e, d') => (Raise e, d')
    end.
Proof.
  revert d. induction xs as [|[sd o] xs IH]; intros d; cbn; auto.
  destruct (Dict.find (order_symbol o) stocks); auto.
Qed.

(** The two loops of [execute_rebalance] against the specification's run
    of all sells, then all buys. *)
Lemma execute_rebalance_run (self : Portfolio)
    (plan : Plan F) (h : heap F) :
  let run := execute_rebalance self plan h in
  let spec := spec_execute (stock_objects self) plan (read h (holdings self)) in
  fst run = fst spec
  /\ read (snd run) (holdings self) = snd spec
  /\ (forall l, l <> holdings self -> read (snd run) l = read h l).
Proof.
  cbv zeta. unfold execute_rebalance, spec_execute, bind.
  rewrite spec_apply_all_app.
  destruct (for_each_orders self Sell (Dict.get plan "sell" []) h)
    as (A & B & C). cbn zeta in A, B, C.
  destruct (for_each _ (sell_order self) h) as [[[]|e] h1] eqn:S1;
    cbn in A, B, C;
    destruct (spec_apply_all _ (map (pair Sell) _) _) as [r1 d1] eqn:S2;
    cbn in A, B; subst r1 d1.
  - destruct (for_each_orders self Buy (Dict.get plan "buy" []) h1)
      as (A' & B' & C'). cbn zeta in A', B', C'.
    repeat split; auto. intros l N. rewrite C', C; auto.
  - cbn. repeat split; auto.
Qed.

(** [max(0.0, x)] is never negative. *)
Lemma pymax_zero_nonneg `{!PyFloatOrder F} (x : F) :
  fle fzero (pymax fzero x) = true /\ flt (pymax fzero x) fzero = false.
Proof.
  unfold pymax. destruct (flt fzero x) eqn:E.
  - split; [now apply flt_zero_fle | now apply flt_zero_asym].
  - split; [apply fle_zero_refl | apply flt_zero_irrefl].
Qed.

End Execute.

(** C2. [execute_rebalance] does what the specification says of it, for
    every plan and every engine state: it answers and leaves in the
    holdings dictionary what applying all sell orders and then all buy
    orders, one after the other, gives, and writes no other object; a sell
    order at a positive price sets [holdings[symbol]] to
    [max(0, holdings.get(symbol, 0) - amount / price)], which is never
    negative; a buy order at a positive price adds [amount / price] to
    [holdings[symbol]]; and an order on a symbol whose price is not positive
    leaves the holdings as they are. *)
Theorem execute_rebalance_meets_spec {F} {PF : PyFloat F} `{!PyFloatOrder F}
    (self : Portfolio) (plan : Plan F) (h : heap F) :
  let held := read h (holdings self) in
  let run := execute_rebalance self plan h in
  (fst run = fst (spec_execute (stock_objects self) plan held)
   /\ read (snd run) (holdings self)
      = snd (spec_execute (stock_objects self) plan held)
   /\ (forall l, l <> holdings self -> read (snd run) l = read h l))
  /\ (forall price d o,
        flt fzero price = true ->
        let sold := pymax fzero
                      (fsub (Dict.get d (order_symbol o) fzero)
                            (fdiv (amount_in_dollars o) price)) in
        Dict.find (order_symbol o) (spec_sell price d o) = Some sold
        /\ fle fzero sold = true
        /\ flt sold fzero = false
        /\ (forall k, k <> order_symbol o ->
                      Dict.find k (spec_sell price d o) = Dict.find k d))
  /\ (forall price d o,
        flt fzero price = true ->
        Dict.find (order_symbol o) (spec_buy price d o)
        = Some (fadd (Dict.get d (order_symbol o) fzero)
                     (fdiv (amount_in_dollars o) price))
        /\ (forall k, k <> order_symbol o ->
                      Dict.find k (spec_buy price d o) = Dict.find k d))
  /\ (forall price d o,
        flt fzero price = false ->
        spec_sell price d o = d /\ spec_buy price d o = d).
Proof.
  cbv zeta. split; [|split; [|split]].
  - apply execute_rebalance_run.
  - intros price d o P. unfold spec_sell. rewrite P. repeat split.
    + apply find_set_same.
    + apply pymax_zero_nonneg.
    + apply pymax_zero_nonneg.
    + intros k N. now apply find_set_other.
  - intros price d o P. unfold spec_buy. rewrite P. split.
    + apply find_set_same.
    + intros k N. now apply find_set_other.
  - intros price d o P. unfold spec_sell, spec_buy. now rewrite P.
Qed.

Lemma execute_rebalance_meets_spec_witness :
  fst (@execute_rebalance float py311 MainExample.portfolio
         MainExample.expected_plan MainExample.heap0)
  = fst (@spec_execute float py311 (stock_objects MainExample.portfolio)
           MainExample.expected_plan MainExample.initial_holdings).
Proof.
  exact (proj1 (proj1 (@execute_rebalance_meets_spec float py311
                         (Float_PyFloatOrder false) MainExample.portfolio
                         MainExample.expected_plan MainExample.heap0))).
Defined.

(* ----------------------------------------------------------------- *)
(** ** The holdings dictionary is the caller's *)

(** C9 (amended). The constructor stores the caller's holdings dictionary
    itself, not a copy: the engine's [holdings] is the very object the
    caller passed, construction writes nothing, a deposit made through the
    engine and the orders of an executed plan land in the caller's
    dictionary, and whatever the caller later writes to its dictionary is
    what the engine values. *)
Theorem init_shares_caller_holdings {F} {PF : PyFloat F}
    (all_tradable_stocks : list (Stock F)) (target callers : loc)
    (h h' : heap F) (self : Portfolio) :
  __init__ all_tradable_stocks target (Some callers) h = (Ok self, h') ->
  holdings self = callers
  /\ h' = h
  /\ (forall s shares,
        Dict.mem s (stock_objects self) = true ->
        flt fzero shares = true ->
        read (snd (add_position self s shares h')) callers
        = Dict.set (read h callers) s
            (fadd (Dict.get (read h callers) s fzero) shares))
  /\ (forall plan,
        read (snd (execute_rebalance self plan h')) callers
        = snd (spec_execute (stock_objects self) plan (read h callers)))
  /\ (forall d,
        get_total_value self (write h' callers d)
        = total_loop d (stock_objects self) fzero (write h' callers d)).
Proof.
  unfold __init__. run_monad.
  destruct (feq _ fone); cbn; [|discriminate].
  destruct (check_tradable _ _ h) as [[[]|e] h1] eqn:C; [|discriminate].
  intros [= <- <-].
  assert (h1 = h) as ->.
  { clear - C. revert C.
    generalize (Dict.keys (read h target)) as syms.
    induction syms as [|s syms IH]; cbn; [now intros [= ->]|].
    destruct (Dict.mem s _); cbn; [exact IH|discriminate]. }
  cbn. repeat split.
  - intros s shares Hm Hs. unfold add_position. cbn. rewrite Hm, Hs. cbn.
    unfold read. cbn. now rewrite Nat.eqb_refl.
  - intros plan.
    match goal with
    | |- context [execute_rebalance ?p plan h] =>
        exact (proj1 (proj2 (execute_rebalance_run p plan h)))
    end.
  - intros d. unfold get_total_value. cbn. unfold read. cbn.
    now rewrite Nat.eqb_refl.
Qed.

Lemma init_shares_caller_holdings_witness :
  @__init__ float py311 MainExample.all_stocks 0 (Some 1) MainExample.heap0
  = (Ok MainExample.portfolio, MainExample.heap0)
  /\ holdings MainExample.portfolio = 1.
Proof.
  split.
  - vm_compute. reflexivity.
  - apply (@init_shares_caller_holdings float py311 MainExample.all_stocks
             0 1 MainExample.heap0 MainExample.heap0 MainExample.portfolio).
    vm_compute. reflexivity.
Defined.

(** C9, the claim as stated fails: after
    [p = Portfolio(stocks, target, holdings)], the call
    [p.add_position("AAPL", 5)] changes the caller's own dictionary from
    {AAPL: 10, ...} to {AAPL: 15, ...}, and the caller's assignment
    [holdings["AAPL"] = 0] changes what the engine reports as total value
    from 4175 to 2675. *)
Lemma caller_holdings_are_aliased :
  (deposit_in py311 MainExample.all_stocks MainExample.my_target_allocation
     MainExample.initial_holdings "AAPL" 5%float
   = (Ok tt, MainExample.my_target_allocation,
      [("AAPL", 15); ("GOOG", 5); ("MSFT", 8)]%float)
   /\ total_value_after_caller_write_in py311 MainExample.all_stocks
        MainExample.my_target_allocation MainExample.initial_holdings
        "AAPL" 0%float
      = Ok 2675%float)
  /\ (deposit_in py312 MainExample.all_stocks MainExample.my_target_allocation
        MainExample.initial_holdings "AAPL" 5%float
      = (Ok tt, MainExample.my_target_allocation,
         [("AAPL", 15); ("GOOG", 5); ("MSFT", 8)]%float)
      /\ total_value_after_caller_write_in py312 MainExample.all_stocks
           MainExample.my_target_allocation MainExample.initial_holdings
           "AAPL" 0%float
         = Ok 2675%float).
Proof. repeat split; vm_compute; reflexivity. Qed.

(* ----------------------------------------------------------------- *)
(** ** The allocation report *)

Section Report.

Context {F : Type} {PF : PyFloat F}.

Lemma item_lt_keys (a b : string * F) :
  fst a <> fst b ->
  (item_lt a b = true /\ key_lt a b) \/ (item_lt a b = false /\ key_lt b a).
Proof.
  intros N. unfold item_lt, key_lt.
  destruct (String_as_OT.compare_spec (fst a) (fst b)) as [E|L|G]; auto.
  contradiction.
Qed.

Lemma insert_item_perm (x : string * F) (l : list (string * F)) :
  Permutation (insert_item x l) (x :: l).
Proof.
  induction l as [|y l IH]; cbn; auto.
  destruct (item_lt y x); auto.
  rewrite IH. apply perm_swap.
Qed.

Lemma sorted_perm (l : list (string * F)) : Permutation (sorted l) l.
Proof.
  induction l as [|x l IH]; cbn; auto.
  rewrite insert_item_perm. now constructor.
Qed.

Lemma insert_item_sorted (x : string * F) (l : list (string * F)) :
  ~ In (fst x) (map fst l) ->
  StronglySorted key_lt l ->
  StronglySorted key_lt (insert_item x l).
Proof.
  intros NI S. induction S as [|y l S IH A]; cbn.
  - repeat constructor.
  - cbn in NI.
    destruct (item_lt_keys y x) as [[E L]|[E L]]; [tauto| |]; rewrite E.
    + constructor; [apply IH; tauto|].
      eapply Permutation_Forall; [symmetry; apply insert_item_perm|].
      now constructor.
    + constructor; [now constructor|].
      constructor; [exact L|].
      eapply Forall_impl; [|exact A].
      intros z Hz. unfold key_lt in *.
      now transitivity (fst y).
Qed.

Lemma sorted_sorted (l : list (string * F)) :
  NoDup (map fst l) -> StronglySorted key_lt (sorted l).
Proof.
  induction l as [|x l IH]; cbn; intros ND.
  - constructor.
  - inversion ND as [|? ? NI ND']; subst.
    apply insert_item_sorted; auto.
    intros I. apply NI.
    eapply Permutation_in; [|exact I].
    apply Permutation_map, sorted_perm.
Qed.

Lemma report_loop_lines (items : list (string * F))
    (stocks : Dict.dict (Stock F)) (total_value : F) (h : heap F) :
  (forall s, In s (map fst items) -> Dict.mem s stocks = true) ->
  report_loop items stocks total_value h
  = (Ok (flat_map (line_of stocks total_value) items), h).
Proof.
  induction items as [|[s x] items IH]; intros A; cbn; [reflexivity|].
  run_monad. unfold line_of. cbn.
  specialize (A s) as As. unfold Dict.mem in As.
  destruct (Dict.find s stocks) as [st|]; [|now specialize (As (or_introl eq_refl))].
  cbn. rewrite IH by (intros s' I; apply A; now right). cbn.
  now destruct (flt fzero _).
Qed.

Lemma total_loop_returns (items : list (string * F))
    (stocks : Dict.dict (Stock F)) (acc : F) (h : heap F) :
  (forall s, In s (map fst items) -> Dict.mem s stocks = true) ->
  exists total, total_loop items stocks acc h = (Ok total, h).
Proof.
  revert acc. induction items as [|[s x] items IH]; intros acc A; cbn.
  - now exists acc.
  - run_monad. specialize (A s) as As. unfold Dict.mem in As.
    destruct (Dict.find s stocks) as [st|];
      [|now specialize (As (or_introl eq_refl))].
    cbn. apply IH. intros s' I. apply A. now right.
Qed.

Lemma listed_symbols_sorted (stocks : Dict.dict (Stock F)) (total_value : F)
    (items : list (string * F)) :
  StronglySorted key_lt items ->
  StronglySorted String_as_OT.lt
    (listed_symbols (flat_map (line_of stocks total_value) items)).
Proof.
  assert (Sub : forall l s,
            In s (listed_symbols (flat_map (line_of stocks total_value) l)) ->
            In s (map fst l)).
  { induction l as [|y l IH]; cbn; [tauto|]. intros s.
    unfold listed_symbols in *. rewrite flat_map_app, in_app_iff.
    intros [I|I]; [left|right; auto].
    unfold line_of in I. destruct (Dict.find (fst y) stocks); [|destruct I].
    cbn in I. destruct (flt fzero _); cbn in I; tauto. }
  induction 1 as [|y l S IH A]; cbn; [constructor|].
  unfold listed_symbols in *. rewrite flat_map_app.
  unfold line_of at 1.
  destruct (Dict.find (fst y) stocks) as [st|]; cbn; [|exact IH].
  destruct (flt fzero _); cbn; [|exact IH].
  constructor; [exact IH|].
  apply Forall_forall. intros k I. apply Sub, in_map_iff in I.
  destruct I as (z & <- & Iz).
  rewrite Forall_forall in A. now apply A.
Qed.

End Report.

(** C8 (amended). When every held symbol is in the registry,
    [get_current_allocation] does not fail and writes nothing. If
    [get_total_value] is 0 it prints the placeholder line alone. Otherwise it
    prints the total and then one line for each held symbol whose percentage
    of the total, [shares * price / total * 100], is greater than 0, and for
    no other symbol: the lines are in strictly increasing order of symbol,
    and each carries the shares, the value and the percentage. *)
Theorem allocation_report_contents {F} {PF : PyFloat F} (self : Portfolio)
    (h : heap F) :
  let held := read h (holdings self) in
  Dict.wf held ->
  (forall s, In s (Dict.keys held) -> Dict.mem s (stock_objects self) = true) ->
  exists total,
    get_total_value self h = (Ok total, h)
    /\ (feq total fzero = true ->
        get_current_allocation self h = (Ok [PortfolioEmpty], h))
    /\ (feq total fzero = false ->
        exists lines,
          get_current_allocation self h = (Ok (TotalLine total :: lines), h)
          /\ StronglySorted String_as_OT.lt (listed_symbols lines)
          /\ forall line,
               In line lines <->
               exists s shares stock,
                 In (s, shares) held
                 /\ Dict.find s (stock_objects self) = Some stock
                 /\ flt fzero
                      (percentage_of total (fmul shares (current_price stock)))
                    = true
                 /\ line = PositionLine s shares
                             (fmul shares (current_price stock))
                             (percentage_of total
                                (fmul shares (current_price stock)))).
Proof.
  cbv zeta. intros W A.
  destruct (total_loop_returns (read h (holdings self)) (stock_objects self)
              fzero h A) as [total T].
  exists total.
  assert (G : get_total_value self h = (Ok total, h)).
  { unfold get_total_value. run_monad. exact T. }
  split; [exact G|].
  split; intros E.
  { unfold get_current_allocation, bind at 1. now rewrite G, E. }
  exists (flat_map (line_of (stock_objects self) total)
            (sorted (read h (holdings self)))).
  repeat split.
  - unfold get_current_allocation, bind at 1. rewrite G, E.
    run_monad. rewrite report_loop_lines; [reflexivity|].
    intros s I. apply A.
    eapply Permutation_in; [|exact I].
    apply Permutation_map, sorted_perm.
  - apply listed_symbols_sorted, sorted_sorted, W.
  - intros I. apply in_flat_map in I as ([s x] & I1 & I2).
    unfold line_of in I2. cbn in I2.
    destruct (Dict.find s (stock_objects self)) as [st|] eqn:Fs; [|destruct I2].
    destruct (flt fzero _) eqn:P; [|destruct I2].
    destruct I2 as [<-|[]].
    exists s, x, st. repeat split; auto.
    eapply Permutation_in; [apply sorted_perm|exact I1].
  - intros (s & x & st & I & Fs & P & ->).
    apply in_flat_map. exists (s, x). split.
    + eapply Permutation_in; [symmetry; apply sorted_perm|exact I].
    + unfold line_of. cbn. rewrite Fs, P. now left.
Qed.

Lemma allocation_report_contents_witness :
  exists total,
    @get_total_value float py311 MainExample.portfolio MainExample.heap0
    = (Ok total, MainExample.heap0).
Proof.
  destruct (@allocation_report_contents float py311 MainExample.portfolio
              MainExample.heap0) as (total & G & _).
  - unfold Dict.wf. cbn.
    repeat (constructor; [cbn; intuition discriminate|]). constructor.
  - cbn. intros s [<-|[<-|[<-|[]]]]; reflexivity.
  - exists total. exact G.
Defined.

(** C8, the claim as stated fails: with META priced at 0 and holdings
    {META: 5, AAPL: 10}, the report lists AAPL alone; META, held with 5
    shares, has percentage 0 and is left out. *)
Lemma zero_price_holding_is_not_listed :
  report_in py311 Inputs.stocks_with_free Inputs.all_in_aapl Inputs.holds_free
  = Ok [TotalLine 1500%float;
        PositionLine "AAPL" 10%float 1500%float 100%float]
  /\ report_in py312 Inputs.stocks_with_free Inputs.all_in_aapl
       Inputs.holds_free
     = Ok [TotalLine 1500%float;
           PositionLine "AAPL" 10%float 1500%float 100%float]
  /\ listed_in exact Inputs.stocks_with_free_q Inputs.all_in_aapl_q
       Inputs.holds_free_q
     = ["AAPL"].
Proof. repeat split; vm_compute; reflexivity. Qed.

(* ----------------------------------------------------------------- *)
(** ** Signs in binary64 *)

Module Float64Facts.

(** The binary64 values that are at least 0: a zero of either sign, a
    positive number, plus infinity. *)
Definition at_least_zero (x : spec_float) : bool :=
  match x with
  | S754_zero _ => true
  | S754_finite s _ _ => negb s
  | S754_infinity s => negb s
  | S754_nan => false
  end.

(** The values greater than 0. *)
Definition above_zero (x : spec_float) : bool :=
  match x with
  | S754_finite s _ _ => negb s
  | S754_infinity s => negb s
  | _ => false
  end.

Lemma leb_zero (x : float) :
  PrimFloat.leb 0 x = at_least_zero (Prim2SF x).
Proof.
  rewrite leb_spec. change (Prim2SF 0%float) with (S754_zero false).
  destruct (Prim2SF x) as [s|s| |s m e]; try destruct s; reflexivity.
Qed.

Lemma ltb_zero (x : float) :
  PrimFloat.ltb 0 x = above_zero (Prim2SF x).
Proof.
  rewrite ltb_spec. change (Prim2SF 0%float) with (S754_zero false).
  destruct (Prim2SF x) as [s|s| |s m e]; try destruct s; reflexivity.
Qed.

Lemma above_at_least (x : spec_float) :
  above_zero x = true -> at_least_zero x = true.
Proof. destruct x; cbn; auto; discriminate. Qed.

(** The only binary64 whose specification is plus infinity. *)
Lemma infinity_only (x : float) :
  Prim2SF x = S754_infinity false -> x = infinity.
Proof.
  intros E. rewrite <- (SF2Prim_Prim2SF x), E. reflexivity.
Qed.

(** Shifting right keeps a mantissa that is not negative so. *)
Lemma shr_1_nonneg (mrs : shr_record) :
  (0 <= shr_m mrs)%Z -> (0 <= shr_m (shr_1 mrs))%Z.
Proof.
  destruct mrs as [m r s]. cbn.
  destruct m as [|p|p]; cbn; try lia; destruct p; cbn; lia.
Qed.

Lemma iter_pos_nonneg (n : positive) :
  forall mrs, (0 <= shr_m mrs)%Z -> (0 <= shr_m (iter_pos shr_1 n mrs))%Z.
Proof.
  induction n as [n IH|n IH|]; intros mrs H; cbn.
  - apply IH, IH. now apply shr_1_nonneg.
  - now apply IH, IH.
  - now apply shr_1_nonneg.
Qed.

Lemma shr_fexp_nonneg (m e : Z) (l : location) :
  (0 <= m)%Z -> (0 <= shr_m (fst (shr_fexp prec emax m e l)))%Z.
Proof.
  intros H. unfold shr_fexp, shr.
  assert (H0 : (0 <= shr_m (shr_record_of_loc m l))%Z)
    by (destruct l as [|[]]; exact H).
  destruct (_ - e)%Z; cbn [fst]; auto. now apply iter_pos_nonneg.
Qed.

Lemma round_nearest_even_nonneg (m : Z) (l : location) :
  (0 <= m)%Z -> (0 <= round_nearest_even m l)%Z.
Proof.
  intros H. destruct l as [|[]]; cbn; try lia. destruct (Z.even m); lia.
Qed.

(** Rounding a mantissa that is not negative, with the sign [+], gives a
    value that is at least 0, never a NaN. *)
Lemma binary_round_aux_nonneg (m e : Z) (l : location) :
  (0 <= m)%Z ->
  at_least_zero (binary_round_aux prec emax false m e l) = true.
Proof.
  intros H. unfold binary_round_aux.
  pose proof (shr_fexp_nonneg m e l H) as H1.
  destruct (shr_fexp prec emax m e l) as [mrs1 e1]. cbn [fst] in H1.
  pose proof (round_nearest_even_nonneg _ (loc_of_shr_record mrs1) H1) as H2.
  pose proof (shr_fexp_nonneg _ e1 loc_Exact H2) as H3.
  destruct (shr_fexp prec emax _ e1 loc_Exact) as [mrs2 e2]. cbn [fst] in H3.
  destruct (shr_m mrs2) as [|p|p]; [reflexivity| |lia].
  destruct (e2 <=? emax - prec)%Z; reflexivity.
Qed.

Lemma binary_round_nonneg (m : positive) (e : Z) :
  at_least_zero (binary_round prec emax false m e) = true.
Proof.
  unfold binary_round. destruct (shl_align _ _ _) as [mz ez].
  apply binary_round_aux_nonneg. lia.
Qed.

Lemma binary_normalize_nonneg (m e : Z) :
  (0 <= m)%Z -> at_least_zero (binary_normalize prec emax m e false) = true.
Proof.
  intros H. destruct m as [|p|p]; cbn; [reflexivity| |lia].
  apply binary_round_nonneg.
Qed.

Lemma SFadd_nonneg (x y : spec_float) :
  at_least_zero x = true -> at_least_zero y = true ->
  at_least_zero (SFadd prec emax x y) = true.
Proof.
  destruct x as [sx|sx| |sx mx ex], y as [sy|sy| |sy my ey]; cbn;
    try discriminate; try destruct sx; try destruct sy; cbn;
    try discriminate; auto.
  intros _ _. apply binary_round_nonneg.
Qed.

(** A value that is at least 0 divided by one greater than 0, the two not
    both infinite. *)
Lemma SFdiv_nonneg (x y : spec_float) :
  at_least_zero x = true -> above_zero y = true ->
  (x = S754_infinity false -> y <> S754_infinity false) ->
  at_least_zero (SFdiv prec emax x y) = true.
Proof.
  destruct x as [sx|sx| |sx mx ex], y as [sy|sy| |sy my ey]; cbn;
    try discriminate; try destruct sx; try destruct sy; cbn;
    try discriminate; auto;
    try (intros _ _ N; now destruct (N eq_refl)).
  intros _ _ _. unfold SFdiv_core_binary.
  set (m' := match _ with Z0 => Z.pos mx | Z.pos _ => _ | Z.neg _ => 0%Z end).
  assert (Hm : (0 <= m')%Z).
  { subst m'. destruct (_ - _ - _)%Z; try lia. apply Z.shiftl_nonneg. lia. }
  pose proof (Z.div_pos m' (Z.pos my) Hm ltac:(lia)) as Hq.
  unfold Z.div in Hq.
  destruct (Z.div_eucl m' (Z.pos my)) as [q r]. cbn [fst] in Hq.
  now apply binary_round_aux_nonneg.
Qed.

(** [held + shares] for a position of at least 0 and a count of at least
    0. *)
Lemma add_nonneg (a b : float) :
  PrimFloat.leb 0 a = true -> PrimFloat.leb 0 b = true ->
  PrimFloat.leb 0 (a + b) = true.
Proof.
  rewrite !leb_zero, add_spec. apply SFadd_nonneg.
Qed.

Lemma ltb_leb_zero (x : float) :
  PrimFloat.ltb 0 x = true -> PrimFloat.leb 0 x = true.
Proof. rewrite ltb_zero, leb_zero. apply above_at_least. Qed.

(** [amount / price] for an amount of at least 0 and a price greater than
    0, the two not both infinite. *)
Lemma div_nonneg (a p : float) :
  PrimFloat.leb 0 a = true -> PrimFloat.ltb 0 p = true ->
  (a = infinity -> p <> infinity) ->
  PrimFloat.leb 0 (a / p) = true.
Proof.
  rewrite !leb_zero, ltb_zero, div_spec. intros A P N.
  apply SFdiv_nonneg; auto.
  intros Ea Ep. apply N; now apply infinity_only.
Qed.

(** The conversion back from a specification that is at least 0. *)
Lemma SF2Prim_nonneg (x : spec_float) :
  at_least_zero x = true -> PrimFloat.leb 0 (SF2Prim x) = true.
Proof.
  destruct x as [s|s| |s m e]; cbn [at_least_zero]; try destruct s;
    try discriminate; try reflexivity.
  intros _. cbn [SF2Prim negb]. unfold Z.ldexp.
  rewrite leb_zero, ldshiftexp_spec, of_uint63_spec.
  pose proof (Uint63.to_Z_bounded (Uint63.of_Z (Z.pos m))) as B.
  pose proof (binary_normalize_nonneg (Uint63.to_Z (Uint63.of_Z (Z.pos m))) 0
                ltac:(lia)) as N.
  destruct (binary_normalize prec emax _ 0 false) as [s|s| |s m' e'];
    cbn [at_least_zero] in N; cbn [SFldexp at_least_zero]; auto.
  destruct s; [discriminate|]. apply binary_round_nonneg.
Qed.

(** [round(x, 2)] of a difference beyond the dead-band is at least 0. *)
Lemma round2_nonneg (x : float) :
  PrimFloat.ltb 0.01 x = true -> PrimFloat.leb 0 (Float64.round2 x) = true.
Proof.
  rewrite ltb_spec.
  assert (E : exists m e, Prim2SF 0.01%float = S754_finite false m e)
    by (vm_compute; eauto).
  destruct E as (m0 & e0 & ->).
  unfold Float64.round2.
  destruct (Prim2SF x) as [s|s| |s m e] eqn:Ex; cbn [SFltb SFcompare];
    try discriminate.
  - destruct s; [discriminate|]. intros _.
    rewrite leb_zero, Ex. reflexivity.
  - destruct s; [discriminate|]. intros _. cbv zeta.
    match goal with
    | |- context [match ?n with Z0 => _ | Z.pos _ => _ | Z.neg _ => _ end] =>
        destruct n as [|p|p]; try reflexivity
    end.
    apply SF2Prim_nonneg, SFdiv_nonneg; try reflexivity. discriminate.
Qed.

(** No difference computed against an infinite price is beyond the
    dead-band on the buying side: [x - held * inf] is minus infinity or a
    NaN. *)
Lemma no_buy_at_infinite_price (x held : float) :
  PrimFloat.leb 0 held = true ->
  PrimFloat.ltb 0.01 (x - held * infinity) = false.
Proof.
  rewrite leb_zero, ltb_spec, sub_spec, mul_spec.
  assert (E : exists m e, Prim2SF 0.01%float = S754_finite false m e)
    by (vm_compute; eauto).
  destruct E as (m0 & e0 & ->).
  change (Prim2SF infinity) with (S754_infinity false).
  destruct (Prim2SF held) as [s|s| |s m e]; cbn [at_least_zero];
    try destruct s; try discriminate; intros _;
    destruct (Prim2SF x) as [sx|sx| |sx mx ex]; try destruct sx; reflexivity.
Qed.

End Float64Facts.

(* ----------------------------------------------------------------- *)
(** ** Holdings never go negative *)

Section NonNegative.

Variable compensated : bool.

Local Abbreviation PF := (Float64.Float_PyFloat compensated).

Lemma nonnegative_get (d : Dict.dict float) (s : string) :
  nonnegative (PF := PF) d -> PrimFloat.leb 0 (Dict.get d s 0%float) = true.
Proof.
  intros N. unfold Dict.get. destruct (Dict.find s d) as [v|] eqn:E.
  - apply find_some_in in E. unfold nonnegative in N.
    rewrite Forall_forall in N. exact (N _ E).
  - reflexivity.
Qed.

Lemma nonnegative_set (d : Dict.dict float) (s : string) (v : float) :
  nonnegative (PF := PF) d -> PrimFloat.leb 0 v = true ->
  nonnegative (PF := PF) (Dict.set d s v).
Proof.
  unfold nonnegative. intros N V.
  induction d as [|[k x] d IH]; cbn.
  - now repeat constructor.
  - inversion N; subst. destruct (String.eqb s k); constructor; auto.
Qed.

Lemma spec_sell_nonnegative (price : float) (d : Dict.dict float)
    (o : Order float) :
  nonnegative (PF := PF) d ->
  nonnegative (PF := PF) (spec_sell (PF := PF) price d o).
Proof.
  intros N. unfold spec_sell. destruct (flt fzero price); auto.
  apply nonnegative_set; auto.
  apply (@pymax_zero_nonneg float PF (Float_PyFloatOrder compensated)).
Qed.

Lemma spec_buy_nonnegative (price : float) (d : Dict.dict float)
    (o : Order float) :
  PrimFloat.leb 0 (amount_in_dollars o) = true ->
  (amount_in_dollars o = infinity -> price <> infinity) ->
  nonnegative (PF := PF) d ->
  nonnegative (PF := PF) (spec_buy (PF := PF) price d o).
Proof.
  intros A I N. unfold spec_buy. destruct (flt fzero price) eqn:P; auto.
  apply nonnegative_set; auto. cbn in *.
  apply Float64Facts.add_nonneg.
  - now apply nonnegative_get.
  - now apply Float64Facts.div_nonneg.
Qed.

Lemma spec_apply_all_nonnegative (stocks : Dict.dict (Stock float))
    (todo : list (side * Order float)) (d : Dict.dict float) :
  Forall (fun x => fst x = Sell \/ buy_divides stocks (snd x)) todo ->
  nonnegative (PF := PF) d ->
  nonnegative (PF := PF) (snd (spec_apply_all (PF := PF) stocks todo d)).
Proof.
  intros A. revert d. induction A as [|[sd o] todo A1 A IH]; intros d N; cbn.
  - exact N.
  - destruct (Dict.find (order_symbol o) stocks) as [st|] eqn:Fs; cbn; auto.
    apply IH. destruct sd.
    + now apply spec_sell_nonnegative.
    + destruct A1 as [A1|[A1 A2]]; [discriminate|].
      apply spec_buy_nonnegative; eauto.
Qed.

Lemma add_position_nonnegative (self : Portfolio) (s : string)
    (shares : float) (h : heap float) :
  nonnegative (PF := PF) (read h (holdings self)) ->
  nonnegative (PF := PF)
    (read (snd (add_position (PF := PF) self s shares h)) (holdings self)).
Proof.
  intros N. unfold add_position.
  destruct (Dict.mem s (stock_objects self)); cbn; auto.
  destruct (PrimFloat.ltb 0 shares) eqn:P; auto.
  unfold bind, load, store. cbn [fst snd].
  rewrite read_write_same. apply nonnegative_set; auto.
  apply Float64Facts.add_nonneg.
  - now apply nonnegative_get.
  - now apply Float64Facts.ltb_leb_zero.
Qed.

Lemma execute_rebalance_nonnegative (self : Portfolio) (plan : Plan float)
    (h : heap float) :
  buys_divide (stock_objects self) plan ->
  nonnegative (PF := PF) (read h (holdings self)) ->
  nonnegative (PF := PF)
    (read (snd (execute_rebalance (PF := PF) self plan h)) (holdings self)).
Proof.
  intros B N. unfold execute_rebalance, bind.
  destruct (for_each_orders (PF := PF) self Sell (Dict.get plan "sell" []) h)
    as (_ & S2 & _). cbn zeta in S2.
  assert (N1 : nonnegative (PF := PF)
                 (read (snd (for_each (Dict.get plan "sell" [])
                               (sell_order (PF := PF) self) h))
                       (holdings self))).
  { rewrite S2. apply spec_apply_all_nonnegative; auto.
    apply Forall_forall. intros [sd o] I. apply in_map_iff in I.
    destruct I as (o' & [= <- <-] & _). now left. }
  destruct (for_each _ (sell_order self) h) as [[[]|e] h1]; cbn in *; auto.
  destruct (for_each_orders (PF := PF) self Buy (Dict.get plan "buy" []) h1)
    as (_ & B2 & _). cbn zeta in B2.
  rewrite B2. apply spec_apply_all_nonnegative; auto.
  apply Forall_forall. intros [sd o] I. apply in_map_iff in I.
  destruct I as (o' & [= <- <-] & I). right. cbn.
  unfold buys_divide in B. rewrite Forall_forall in B. now apply B.
Qed.

Lemma backfill_nonnegative (syms : list string) (target l : loc)
    (h : heap float) :
  nonnegative (PF := PF) (read h l) ->
  nonnegative (PF := PF) (read (snd (backfill (PF := PF) syms target h)) l).
Proof.
  revert h. induction syms as [|s syms IH]; intros h N; cbn; auto.
  run_monad. destruct (Dict.mem s (read h target)); cbn; apply IH; auto.
  destruct (Nat.eq_dec l target) as [->|D].
  - rewrite read_write_same. apply nonnegative_set; auto.
  - now rewrite read_write_other.
Qed.

Lemma append_buy_divides (stocks : Dict.dict (Stock float))
    (actions : Plan float) (o : Order float) :
  buys_divide stocks actions -> buy_divides stocks o ->
  buys_divide stocks (append_order actions "buy" o).
Proof.
  unfold buys_divide, append_order. intros B A.
  rewrite get_set_same. apply Forall_app. split; auto.
Qed.

Lemma append_sell_divides (stocks : Dict.dict (Stock float))
    (actions : Plan float) (o : Order float) :
  buys_divide stocks actions ->
  buys_divide stocks (append_order actions "sell" o).
Proof.
  unfold buys_divide, append_order. intros B.
  rewrite get_set_other; auto. discriminate.
Qed.

(** The loop of lines 102-110 appends buy orders of at least 0 only, and
    none for a stock at an infinite price. *)
Lemma plan_loop_buys_divide (items : list (string * float))
    (self : Portfolio) (total : float) (actions plan : Plan float)
    (h : heap float) :
  nonnegative (PF := PF) (read h (holdings self)) ->
  buys_divide (stock_objects self) actions ->
  fst (plan_loop (PF := PF) items self total actions h) = Ok plan ->
  buys_divide (stock_objects self) plan.
Proof.
  intros N. revert actions.
  induction items as [|[s f] items IH]; intros actions B; cbn.
  - now intros [= <-].
  - run_monad.
    destruct (Dict.find s (stock_objects self)) as [st|] eqn:Fs; cbn;
      [|discriminate].
    apply IH.
    destruct (PrimFloat.ltb 0.01 _) eqn:P1.
    + apply append_buy_divides; auto. split; cbn.
      * now apply Float64Facts.round2_nonneg.
      * intros _ st' Fs' E. rewrite Fs in Fs'. injection Fs' as <-.
        unfold current_price in *. rewrite E in P1.
        rewrite Float64Facts.no_buy_at_infinite_price in P1;
          [discriminate|].
        now apply nonnegative_get.
    + destruct (PrimFloat.ltb _ (- 0.01)); auto.
      now apply append_sell_divides.
Qed.

Lemma create_rebalance_plan_nonnegative (self : Portfolio) (h : heap float) :
  nonnegative (PF := PF) (read h (holdings self)) ->
  nonnegative (PF := PF)
    (read (snd (create_rebalance_plan (PF := PF) self h)) (holdings self))
  /\ (forall plan,
        fst (create_rebalance_plan (PF := PF) self h) = Ok plan ->
        buys_divide (stock_objects self) plan).
Proof.
  intros N. rewrite create_rebalance_plan_steps.
  destruct (fst (get_total_value self h)) as [total|e];
    [|split; [exact N|discriminate]].
  destruct (feq total fzero).
  - split; [exact N|]. intros plan [= <-]. constructor.
  - cbv zeta. split.
    + rewrite plan_loop_heap. now apply backfill_nonnegative.
    + intros plan. apply plan_loop_buys_divide; [|constructor].
      now apply backfill_nonnegative.
Qed.

Lemma given_buys_divide (stocks : Dict.dict (Stock float))
    (plan : Plan float) :
  buys_nonnegative plan -> buys_divide stocks plan.
Proof.
  unfold buys_nonnegative, buys_divide. apply Forall_impl.
  intros o [A I]. split; [exact A|]. intros E. now destruct (I E).
Qed.

Lemma run_operations_nonnegative (self : Portfolio)
    (ops : list (operation float)) (h : heap float)
    (plans : list (Plan float)) :
  given_plans_nonnegative ops ->
  nonnegative (PF := PF) (read h (holdings self)) ->
  Forall (buys_divide (stock_objects self)) plans ->
  nonnegative (PF := PF)
    (read (fst (run_operations (PF := PF) self ops h plans)) (holdings self)).
Proof.
  intros G. revert h plans.
  induction G as [|op ops G1 G IH]; intros h plans N P; [exact N|].
  destruct op as [s x| |k|given]; cbn.
  - apply IH; auto. now apply add_position_nonnegative.
  - destruct (create_rebalance_plan_nonnegative self h N) as [N1 P1].
    destruct (create_rebalance_plan self h) as [[plan|e] h1]; cbn in *.
    + apply IH; auto. apply Forall_app. split; auto.
    + apply IH; auto.
  - destruct (nth_error plans k) as [plan|] eqn:E; [|now apply IH].
    apply IH; auto. apply execute_rebalance_nonnegative; auto.
    rewrite Forall_forall in P. apply P. eapply nth_error_In, E.
  - apply IH; auto. apply execute_rebalance_nonnegative; auto.
    now apply given_buys_divide.
Qed.

End NonNegative.

Lemma check_tradable_heap {F} (stocks : Dict.dict (Stock F))
    (syms : list string) (h : heap F) :
  snd (check_tradable syms stocks h) = h.
Proof.
  induction syms as [|s syms IH]; cbn; auto.
  destruct (Dict.mem s stocks); cbn; auto.
Qed.

(** What the engine's holdings are right after a successful
    construction. *)
Lemma init_holdings_content {F} {PF : PyFloat F}
    (all_tradable_stocks : list (Stock F)) (target : loc)
    (initial_holdings : option loc) (h h' : heap F) (self : Portfolio) :
  __init__ all_tradable_stocks target initial_holdings h = (Ok self, h') ->
  read h' (holdings self)
  = match initial_holdings with
    | Some l => read h l
    | None => []
    end.
Proof.
  unfold __init__. run_monad.
  destruct (feq _ fone); cbn; [|discriminate].
  destruct initial_holdings as [l|]; cbn.
  - pose proof (check_tradable_heap (index_stocks all_tradable_stocks)
                  (Dict.keys (read h target)) h) as C.
    destruct (check_tradable _ _ h) as [[[]|e] h1]; cbn in *; [|discriminate].
    intros [= <- <-]. cbn. now subst.
  - unfold alloc.
    match goal with
    | |- context [check_tradable ?a ?b ?h0] =>
        pose proof (check_tradable_heap b a h0) as C;
        destruct (check_tradable a b h0) as [[[]|e] h1]; cbn in *;
        [|discriminate]
    end.
    intros [= <- <-]. subst h1. unfold read. cbn. now rewrite Nat.eqb_refl.
Qed.

(** C7. In binary64, under either [sum]: for an engine constructed with
    initial holdings of at least 0 (or none), every share count of the
    holdings dictionary is still at least 0, and so no NaN, after any
    sequence of deposits, plan creations and plan executions, whether or
    not the calls raise. The plans executed are the plans the engine
    returned earlier in the sequence, stale or not, and plans of the
    caller's own making that ask to buy finite amounts of at least 0. *)
Theorem holdings_stay_nonnegative (compensated : bool)
    (all_tradable_stocks : list (Stock float))
    (target : loc) (initial_holdings : option loc) (h0 h1 : heap float)
    (self : Portfolio) (ops : list (operation float)) :
  @__init__ float (Float64.Float_PyFloat compensated) all_tradable_stocks
    target initial_holdings h0
  = (Ok self, h1) ->
  match initial_holdings with
  | Some l => nonnegative (PF := Float64.Float_PyFloat compensated) (read h0 l)
  | None => True
  end ->
  given_plans_nonnegative ops ->
  nonnegative (PF := Float64.Float_PyFloat compensated)
    (read (fst (@run_operations float (Float64.Float_PyFloat compensated)
                  self ops h1 []))
          (holdings self)).
Proof.
  intros I N G. apply run_operations_nonnegative; [exact G| |constructor].
  rewrite (init_holdings_content _ _ _ _ _ _ I).
  destruct initial_holdings; [exact N|constructor].
Qed.

Lemma holdings_stay_nonnegative_witness :
  nonnegative (PF := py311)
    (read (fst (@run_operations float py311 MainExample.portfolio
                  [Deposit "META" 2%float; CreatePlan; ExecutePlan 0;
                   CreatePlan; Deposit "TSLA" 1%float; ExecutePlan 1;
                   ExecuteGiven MainExample.expected_plan]
                  MainExample.heap0 []))
          1).
Proof.
  apply (holdings_stay_nonnegative false MainExample.all_stocks 0 (Some 1)
           MainExample.heap0 MainExample.heap0 MainExample.portfolio).
  - vm_compute. reflexivity.
  - repeat constructor.
  - repeat constructor; cbn; discriminate.
Defined.

(** The condition that a caller's amounts be finite is needed: a
    hand-written plan that buys an infinite amount of a stock whose price is
    infinite stores [inf / inf], a NaN, which is not at least 0. *)
Example handmade_infinite_buy_stores_nan :
  read (snd (@execute_rebalance float py311
               {| target_allocation := 0;
                  stock_objects :=
                    index_stocks [ {| symbol := "AAPL"; _price := infinity |} ];
                  holdings := 1 |}
               [("buy", [ {| order_symbol := "AAPL";
                             amount_in_dollars := infinity |} ])]
               MainExample.heap0)) 1
  = [("AAPL", nan); ("GOOG", 5%float); ("MSFT", 8%float)]
  /\ PrimFloat.leb 0 nan = false.
Proof. split; vm_compute; reflexivity. Qed.

(** The condition on the caller's own plans is needed: a hand-written plan
    that "buys" -3000 of AAPL, which [create_rebalance_plan] never returns,
    takes the 10 shares held to -10. *)
Example handmade_negative_buy_goes_negative :
  read (snd (@execute_rebalance float py311 MainExample.portfolio
               [("buy", [ {| order_symbol := "AAPL";
                             amount_in_dollars := (-3000)%float |} ])]
               MainExample.heap0)) 1
  = [("AAPL", -10); ("GOOG", 5); ("MSFT", 8)]%float.
Proof. vm_compute. reflexivity. Qed.

(* ----------------------------------------------------------------- *)
(** ** What a plan holds and what executing it leaves *)

Section PlanContents.

Context {F : Type} {PF : PyFloat F}.

(** The planning loop appends, entry by entry, the orders of [buy_of] and
    [sell_of]. *)
Lemma plan_loop_orders (items : list (string * F)) (self : Portfolio)
    (total : F) (buys sells : list (Order F)) (h : heap F) :
  (forall s, In s (map fst items) -> Dict.mem s (stock_objects self) = true) ->
  let held := read h (holdings self) in
  plan_loop items self total [("buy", buys); ("sell", sells)] h
  = (Ok [("buy",
          buys ++ flat_map (buy_of (stock_objects self) held total) items);
         ("sell",
          sells ++ flat_map (sell_of (stock_objects self) held total) items)],
     h).
Proof.
  cbv zeta. revert buys sells.
  induction items as [|[s f] items IH]; intros buys sells A; cbn.
  - now rewrite !app_nil_r.
  - run_monad. unfold buy_of, sell_of, difference_of. cbn.
    specialize (A s) as As. unfold Dict.mem in As.
    destruct (Dict.find s (stock_objects self)) as [st|];
      [|now specialize (As (or_introl eq_refl))].
    cbn. assert (A' : forall s', In s' (map fst items) ->
                        Dict.mem s' (stock_objects self) = true)
      by (intros s' I; apply A; now right).
    destruct (flt fcent _); [|destruct (flt _ (fneg fcent))];
      unfold append_order; cbn; rewrite IH by exact A';
      now rewrite <- ?app_assoc.
Qed.

Lemma order_symbols_of_buys (stocks : Dict.dict (Stock F)) (held : Dict.dict F)
    (total : F) (items : list (string * F)) (o : Order F) :
  In o (flat_map (buy_of stocks held total) items) ->
  exists f, In (order_symbol o, f) items
            /\ buy_of stocks held total (order_symbol o, f) = [o].
Proof.
  intros I. apply in_flat_map in I as ([s f] & I1 & I2).
  assert (order_symbol o = s /\ buy_of stocks held total (s, f) = [o]) as [<- E].
  { unfold buy_of in *. destruct (difference_of _ _ _ _); [|destruct I2].
    destruct (flt fcent _); [|destruct I2].
    destruct I2 as [<-|[]]. auto. }
  eauto.
Qed.

Lemma order_symbols_of_sells (stocks : Dict.dict (Stock F)) (held : Dict.dict F)
    (total : F) (items : list (string * F)) (o : Order F) :
  In o (flat_map (sell_of stocks held total) items) ->
  exists f, In (order_symbol o, f) items
            /\ sell_of stocks held total (order_symbol o, f) = [o].
Proof.
  intros I. apply in_flat_map in I as ([s f] & I1 & I2).
  assert (order_symbol o = s /\ sell_of stocks held total (s, f) = [o]) as [<- E].
  { unfold sell_of in *. destruct (difference_of _ _ _ _); [|destruct I2].
    destruct (flt fcent _); [destruct I2|].
    destruct (flt _ (fneg fcent)); [|destruct I2].
    destruct I2 as [<-|[]]. auto. }
  eauto.
Qed.

(** At most one order per symbol. *)
Lemma flat_map_symbols_nodup (g : string * F -> list (Order F))
    (items : list (string * F)) :
  (forall item o, In o (g item) -> g item = [o] /\ order_symbol o = fst item) ->
  NoDup (map fst items) ->
  NoDup (map order_symbol (flat_map g items)).
Proof.
  intros G. induction items as [|x items IH]; cbn; intros ND; [constructor|].
  inversion ND as [|? ? NI ND']; subst.
  destruct (g x) as [|o l] eqn:E; cbn; [auto|].
  destruct (G x o) as [E1 E2]; [rewrite E; now left|].
  rewrite E in E1. injection E1 as ->. cbn.
  constructor; auto.
  intros I. apply NI. apply in_map_iff in I as (o' & Eo & Io).
  apply in_flat_map in Io as (y & Iy & Iy').
  destruct (G y o' Iy') as [_ Ey].
  apply in_map_iff. exists y. split; [congruence|exact Iy].
Qed.

Lemma buy_of_single (stocks : Dict.dict (Stock F)) (held : Dict.dict F)
    (total : F) (item : string * F) (o : Order F) :
  In o (buy_of stocks held total item) ->
  buy_of stocks held total item = [o] /\ order_symbol o = fst item.
Proof.
  unfold buy_of. destruct (difference_of _ _ _ _); [|intros []].
  destruct (flt fcent _); [|intros []].
  intros [<-|[]]. auto.
Qed.

Lemma sell_of_single (stocks : Dict.dict (Stock F)) (held : Dict.dict F)
    (total : F) (item : string * F) (o : Order F) :
  In o (sell_of stocks held total item) ->
  sell_of stocks held total item = [o] /\ order_symbol o = fst item.
Proof.
  unfold sell_of. destruct (difference_of _ _ _ _); [|intros []].
  destruct (flt fcent _); [intros []|].
  destruct (flt _ (fneg fcent)); [|intros []].
  intros [<-|[]]. auto.
Qed.

(** Orders on other symbols leave an entry as it is. *)
Lemma spec_apply_all_find_other (stocks : Dict.dict (Stock F))
    (todo : list (side * Order F)) (d : Dict.dict F) (s : string) :
  (forall x, In x todo -> order_symbol (snd x) <> s) ->
  Dict.find s (snd (spec_apply_all stocks todo d)) = Dict.find s d.
Proof.
  revert d. induction todo as [|[sd o] todo IH]; intros d A; cbn; auto.
  destruct (Dict.find (order_symbol o) stocks) as [st|]; cbn; auto.
  rewrite IH by (intros x I; apply A; now right).
  assert (N : s <> order_symbol o)
    by (intros ->; now apply (A (sd, o)); [left|]).
  destruct sd; unfold spec_sell, spec_buy;
    destruct (flt fzero (current_price st)); auto;
    now apply find_set_other.
Qed.

(** The run does not stop when every order is on a registry symbol. *)
Lemma spec_apply_all_ok (stocks : Dict.dict (Stock F))
    (todo : list (side * Order F)) (d : Dict.dict F) :
  (forall x, In x todo -> Dict.mem (order_symbol (snd x)) stocks = true) ->
  fst (spec_apply_all stocks todo d) = Ok tt.
Proof.
  revert d. induction todo as [|[sd o] todo IH]; intros d A; cbn; auto.
  specialize (A (sd, o)) as Ao. unfold Dict.mem in Ao. cbn in Ao.
  destruct (Dict.find (order_symbol o) stocks) as [st|];
    [|now specialize (Ao (or_introl eq_refl))].
  apply IH. intros x I. apply A. now right.
Qed.

(** The one order on a symbol decides its entry. *)
Lemma spec_apply_all_find_unique (stocks : Dict.dict (Stock F))
    (todo : list (side * Order F)) (d : Dict.dict F) (sd : side)
    (o : Order F) (st : Stock F) :
  (forall x, In x todo -> Dict.mem (order_symbol (snd x)) stocks = true) ->
  NoDup (map (fun x => order_symbol (snd x)) todo) ->
  In (sd, o) todo ->
  Dict.find (order_symbol o) stocks = Some st ->
  Dict.find (order_symbol o) (snd (spec_apply_all stocks todo d))
  = Dict.find (order_symbol o)
      (match sd with
       | Sell => spec_sell (current_price st) d o
       | Buy => spec_buy (current_price st) d o
       end).
Proof.
  intros A ND I Fs. revert d.
  induction todo as [|[sd' o'] todo IH]; intros d; [destruct I|].
  cbn in ND. inversion ND as [|? ? NI ND']; subst.
  cbn [spec_apply_all].
  destruct I as [[= -> ->]|I].
  - rewrite Fs. apply spec_apply_all_find_other.
    intros x Ix E. apply NI. apply in_map_iff. now exists x.
  - specialize (A (sd', o')) as Ao. unfold Dict.mem in Ao. cbn in Ao.
    destruct (Dict.find (order_symbol o') stocks) as [st'|] eqn:Fo;
      [|now specialize (Ao (or_introl eq_refl))].
    rewrite IH; auto; [|intros x Ix; apply A; now right].
    assert (N : order_symbol o <> order_symbol o').
    { intros E. apply NI. apply in_map_iff. exists (sd, o). auto. }
    destruct sd, sd'; unfold spec_sell, spec_buy;
      destruct (flt fzero (current_price st));
      destruct (flt fzero (current_price st')); auto;
      rewrite ?find_set_same; auto;
      repeat (rewrite (find_set_other _ (order_symbol o')) by exact N); auto;
      unfold Dict.get;
      repeat (rewrite (find_set_other _ (order_symbol o')) by exact N); auto.
Qed.

(** A loop preserves what each of its assignments preserves. *)
Lemma backfill_preserves (P : Dict.dict F -> Prop) (syms : list string)
    (target : loc) (h : heap F) :
  (forall t s, In s syms -> P t -> P (Dict.set t s fzero)) ->
  P (read h target) ->
  P (read (snd (backfill syms target h)) target).
Proof.
  revert h. induction syms as [|s syms IH]; intros h A Ph; cbn; auto.
  run_monad.
  assert (A' : forall t s', In s' syms -> P t -> P (Dict.set t s' fzero))
    by (intros t s' I; apply A; now right).
  destruct (Dict.mem s (read h target)); cbn; apply IH; auto.
  rewrite read_write_same. apply A; auto; now left.
Qed.

End PlanContents.

(* ----------------------------------------------------------------- *)
(** ** What a rebalance does to each position *)

Section Rebalance.

Context {F : Type} {PF : PyFloat F}.

(** The loop of lines 50-51 ends only when it met registry symbols. *)
Lemma total_loop_ok_listed (items : list (string * F))
    (stocks : Dict.dict (Stock F)) (acc total : F) (h : heap F) :
  fst (total_loop items stocks acc h) = Ok total ->
  forall s, In s (map fst items) -> Dict.mem s stocks = true.
Proof.
  revert acc. induction items as [|[k x] items IH]; intros acc T s; cbn.
  - intros [].
  - cbn in T. run_monad. unfold Dict.mem.
    destruct (Dict.find k stocks) as [st|] eqn:Fk; cbn in T; [|discriminate].
    intros [<-|I]; [now rewrite Fk|]. eapply IH; eauto.
Qed.

(** Orders add registry symbols only. *)
Lemma spec_apply_all_listed (stocks : Dict.dict (Stock F))
    (todo : list (side * Order F)) (d : Dict.dict F) :
  (forall k, In k (Dict.keys d) -> Dict.mem k stocks = true) ->
  forall k, In k (Dict.keys (snd (spec_apply_all stocks todo d))) ->
            Dict.mem k stocks = true.
Proof.
  revert d. induction todo as [|[sd o] todo IH]; intros d A; cbn; auto.
  destruct (Dict.find (order_symbol o) stocks) as [st|] eqn:Fo; cbn; auto.
  apply IH. intros k I.
  assert (L : Dict.mem (order_symbol o) stocks = true)
    by (unfold Dict.mem; now rewrite Fo).
  destruct sd; unfold spec_sell, spec_buy in I;
    destruct (flt fzero (current_price st)); auto;
    apply keys_set_subset in I as [->|I]; auto.
Qed.

(** After the backfill every symbol of the loop is in the target. *)
Lemma backfill_covers (syms : list string) (target : loc) (h : heap F)
    (s : string) :
  In s syms ->
  Dict.mem s (read (snd (backfill syms target h)) target) = true.
Proof.
  revert h. induction syms as [|k syms IH]; intros h; [intros []|].
  intros I. cbn [backfill]. unfold bind, load. cbn [fst snd].
  destruct (in_dec string_dec s syms) as [I'|NI].
  - destruct (negb (Dict.mem k (read h target))); cbn; apply IH; auto.
  - destruct I as [->|I]; [|contradiction].
    assert (P : forall h0, Dict.mem s (read h0 target) = true ->
      Dict.mem s (read (snd (backfill syms target h0)) target) = true).
    { intros h0 M0.
      apply (backfill_preserves (fun t => Dict.mem s t = true)); auto.
      intros t k _. apply mem_set_mono. }
    destruct (Dict.mem s (read h target)) eqn:E; cbn.
    + unfold ret. cbn. now apply P.
    + unfold store. cbn. apply P. rewrite read_write_same.
      apply mem_set_same.
Qed.

(** C6 (amended). For an engine whose target and holdings are two
    dictionaries, whose target symbols are in the registry and whose total
    value is returned and is not 0: [create_rebalance_plan] followed at
    once by [execute_rebalance] of its plan returns, leaves the backfilled
    target allocation as the first call left it, and leaves each symbol of
    it with the position of [position_after], computed from the holdings
    and the total that the plan was made from. A second
    [create_rebalance_plan] right after returns too and writes nothing: its
    orders are those that lines 103-110 append for the new holdings and
    the new total, one for each position that is then more than 0.01 away
    from its fraction of that total, and none when the new total is 0. *)
Theorem rebalance_moves_each_position (self : Portfolio) (h : heap F)
    (total : F) :
  target_allocation self <> holdings self ->
  Dict.wf (read h (target_allocation self)) ->
  (forall s, In s (Dict.keys (read h (target_allocation self))) ->
             Dict.mem s (stock_objects self) = true) ->
  fst (get_total_value self h) = Ok total ->
  feq total fzero = false ->
  exists plan h1 h2 total2,
    create_rebalance_plan self h = (Ok plan, h1)
    /\ execute_rebalance self plan h1 = (Ok tt, h2)
    /\ read h2 (target_allocation self) = read h1 (target_allocation self)
    /\ (forall s fraction stock,
          Dict.find s (read h1 (target_allocation self)) = Some fraction ->
          Dict.find s (stock_objects self) = Some stock ->
          Dict.find s (read h2 (holdings self))
          = position_after (read h (holdings self)) total s fraction
              (current_price stock))
    /\ get_total_value self h2 = (Ok total2, h2)
    /\ create_rebalance_plan self h2
       = (Ok (if feq total2 fzero
              then [("buy", []); ("sell", [])]
              else
                [("buy",
                  flat_map (buy_of (stock_objects self)
                              (read h2 (holdings self)) total2)
                           (read h1 (target_allocation self)));
                 ("sell",
                  flat_map (sell_of (stock_objects self)
                              (read h2 (holdings self)) total2)
                           (read h1 (target_allocation self)))]),
          h2).
Proof.
  intros D W KT G Z.
  assert (KH : forall s, In s (Dict.keys (read h (holdings self))) ->
                         Dict.mem s (stock_objects self) = true).
  { unfold get_total_value in G. run_monad.
    now apply (total_loop_ok_listed _ _ _ _ _ G). }
  rewrite create_rebalance_plan_steps, G, Z. cbv zeta.
  set (h1 := snd (backfill (Dict.keys (stock_objects self))
                    (target_allocation self) h)).
  assert (W1 : Dict.wf (read h1 (target_allocation self))).
  { apply backfill_preserves; auto. intros t s _. apply wf_set. }
  assert (K1 : forall s, In s (Dict.keys (read h1 (target_allocation self))) ->
                         Dict.mem s (stock_objects self) = true).
  { apply (backfill_preserves
             (fun t => forall s, In s (Dict.keys t) ->
                                 Dict.mem s (stock_objects self) = true));
      auto.
    intros t s Is Pt k Ik. apply keys_set_subset in Ik as [->|Ik]; auto.
    now apply mem_in_keys. }
  assert (C1 : forall s, In s (Dict.keys (stock_objects self)) ->
                         Dict.mem s (read h1 (target_allocation self)) = true).
  { intros s Is. now apply backfill_covers. }
  assert (H1 : read h1 (holdings self) = read h (holdings self)).
  { apply backfill_frame. auto. }
  rewrite plan_loop_orders by exact K1. cbn [app]. rewrite H1.
  set (held := read h (holdings self)) in *.
  set (t1 := read h1 (target_allocation self)) in *.
  set (B := flat_map (buy_of (stock_objects self) held total) t1).
  set (S := flat_map (sell_of (stock_objects self) held total) t1).
  set (plan := [("buy", B); ("sell", S)]).
  destruct (execute_rebalance_run self plan h1) as (R1 & R2 & R3).
  cbn zeta in R1, R2, R3. rewrite H1 in R1, R2. fold held in R1, R2.
  unfold spec_execute in R1, R2.
  change (Dict.get plan "sell" []) with S in R1, R2.
  change (Dict.get plan "buy" []) with B in R1, R2.
  set (todo := (map (pair Sell) S ++ map (pair Buy) B)%list) in *.
  assert (InS : forall o, In o S ->
            exists f, Dict.find (order_symbol o) t1 = Some f
              /\ sell_of (stock_objects self) held total (order_symbol o, f)
                 = [o]).
  { intros o I. apply order_symbols_of_sells in I as (f & I1 & I2).
    exists f. split; auto. now apply in_find. }
  assert (InB : forall o, In o B ->
            exists f, Dict.find (order_symbol o) t1 = Some f
              /\ buy_of (stock_objects self) held total (order_symbol o, f)
                 = [o]).
  { intros o I. apply order_symbols_of_buys in I as (f & I1 & I2).
    exists f. split; auto. now apply in_find. }
  assert (Tin : forall x, In x todo ->
            (fst x = Sell /\ In (snd x) S) \/ (fst x = Buy /\ In (snd x) B)).
  { intros x I. unfold todo in I. apply in_app_iff in I as [I|I];
      apply in_map_iff in I as (o & <- & I); auto. }
  assert (Tmem : forall x, In x todo ->
            Dict.mem (order_symbol (snd x)) (stock_objects self) = true).
  { intros x I. apply K1, mem_in_keys.
    destruct (Tin x I) as [[_ I']|[_ I']];
      [apply InS in I'|apply InB in I']; destruct I' as (f & Ff & _);
      unfold Dict.mem; now rewrite Ff. }
  assert (Tnd : NoDup (map (fun x => order_symbol (snd x)) todo)).
  { unfold todo. rewrite map_app, !map_map. cbn.
    apply NoDup_app.
    - apply flat_map_symbols_nodup; [apply sell_of_single|exact W1].
    - apply flat_map_symbols_nodup; [apply buy_of_single|exact W1].
    - intros s Is Ib.
      apply in_map_iff in Is as (o & <- & Io).
      apply in_map_iff in Ib as (o' & E & Io').
      apply InS in Io as (f & Ff & Es).
      apply InB in Io' as (f' & Ff' & Eb). rewrite E in *.
      rewrite Ff in Ff'. injection Ff' as <-.
      unfold sell_of, buy_of in *.
      destruct (difference_of _ _ _ _) as [d|]; [|discriminate].
      destruct (flt fcent d); discriminate. }
  set (h2 := snd (execute_rebalance self plan h1)) in *.
  assert (X : execute_rebalance self plan h1 = (Ok tt, h2)).
  { rewrite (surjective_pairing (execute_rebalance self plan h1)).
    f_equal. rewrite R1. destruct (fst (spec_apply_all _ todo held)) eqn:E.
    - now destruct a.
    - rewrite spec_apply_all_ok in E by exact Tmem. discriminate. }
  assert (T2 : read h2 (target_allocation self) = t1) by now apply R3.
  assert (KH2 : forall s, In s (Dict.keys (read h2 (holdings self))) ->
                          Dict.mem s (stock_objects self) = true).
  { rewrite R2. now apply spec_apply_all_listed. }
  destruct (total_loop_returns (read h2 (holdings self)) (stock_objects self)
              fzero h2 KH2) as [total2 L2].
  assert (G2 : get_total_value self h2 = (Ok total2, h2)).
  { unfold get_total_value. run_monad. exact L2. }
  exists plan, h1, h2, total2.
  split; [reflexivity|]. split; [exact X|]. split; [exact T2|].
  split; [|split; [exact G2|]].
  - intros s f st Ft Fs. fold t1 in Ft. rewrite R2. unfold position_after.
    fold (difference_of (stock_objects self) held total (s, f)).
    set (d := fsub (fmul total f)
                (fmul (Dict.get held s fzero) (current_price st))).
    assert (Dd : difference_of (stock_objects self) held total (s, f) = Some d).
    { unfold difference_of. cbn. now rewrite Fs. }
    destruct (flt fcent d) eqn:E1; [|destruct (flt d (fneg fcent)) eqn:E2].
    + set (o := {| order_symbol := s; amount_in_dollars := fround2 d |}).
      assert (Io : In (Buy, o) todo).
      { unfold todo. apply in_app_iff. right. apply in_map.
        apply in_flat_map. exists (s, f). split; [now apply find_some_in|].
        unfold buy_of. rewrite Dd, E1. now left. }
      pose proof (spec_apply_all_find_unique (stock_objects self) todo held
                    Buy o st Tmem Tnd Io Fs) as U.
      cbn [order_symbol o] in U. rewrite U. unfold spec_buy.
      destruct (flt fzero (current_price st)); [|reflexivity].
      now rewrite find_set_same.
    + set (o := {| order_symbol := s;
                   amount_in_dollars := fround2 (fabs d) |}).
      assert (Io : In (Sell, o) todo).
      { unfold todo. apply in_app_iff. left. apply in_map.
        apply in_flat_map. exists (s, f). split; [now apply find_some_in|].
        unfold sell_of. rewrite Dd, E1, E2. now left. }
      pose proof (spec_apply_all_find_unique (stock_objects self) todo held
                    Sell o st Tmem Tnd Io Fs) as U.
      cbn [order_symbol o] in U. rewrite U. unfold spec_sell.
      destruct (flt fzero (current_price st)); [|reflexivity].
      now rewrite find_set_same.
    + assert (U : Dict.find s (snd (spec_apply_all (stock_objects self)
                                      todo held))
                  = Dict.find s held).
      { apply spec_apply_all_find_other. intros x Ix E.
        destruct (Tin x Ix) as [[_ I']|[_ I']];
          [apply InS in I'|apply InB in I']; destruct I' as (f' & Ff & Eo);
          rewrite E in *; rewrite Ft in Ff; injection Ff as <-;
          unfold sell_of, buy_of in Eo; rewrite Dd, E1, ?E2 in Eo;
          discriminate. }
      rewrite U. now destruct (flt fzero (current_price st)).
  - rewrite create_rebalance_plan_steps, G2. cbn [fst].
    destruct (feq total2 fzero); [reflexivity|]. cbv zeta.
    rewrite backfill_noop by (intros s Is; rewrite T2; now apply C1).
    cbn [snd]. rewrite T2.
    rewrite plan_loop_orders by exact K1. reflexivity.
Qed.

End Rebalance.

Lemma rebalance_moves_each_position_witness :
  exists plan h1 h2 total2,
    @create_rebalance_plan float py311 MainExample.portfolio MainExample.heap0
    = (Ok plan, h1)
    /\ @execute_rebalance float py311 MainExample.portfolio plan h1
       = (Ok tt, h2)
    /\ read h2 0 = read h1 0
    /\ (forall s fraction stock,
          Dict.find s (read h1 0) = Some fraction ->
          Dict.find s (index_stocks MainExample.all_stocks) = Some stock ->
          Dict.find s (read h2 1)
          = @position_after float py311 MainExample.initial_holdings
              4175%float s fraction (current_price stock))
    /\ @get_total_value float py311 MainExample.portfolio h2 = (Ok total2, h2)
    /\ @create_rebalance_plan float py311 MainExample.portfolio h2
       = (Ok (if @feq float py311 total2 0%float
              then [("buy", []); ("sell", [])]
              else
                [("buy",
                  flat_map (@buy_of float py311
                              (index_stocks MainExample.all_stocks)
                              (read h2 1) total2)
                           (read h1 0));
                 ("sell",
                  flat_map (@sell_of float py311
                              (index_stocks MainExample.all_stocks)
                              (read h2 1) total2)
                           (read h1 0))]),
          h2).
Proof.
  apply (@rebalance_moves_each_position float py311 MainExample.portfolio
           MainExample.heap0 4175%float).
  - cbn. discriminate.
  - unfold Dict.wf. cbn.
    repeat (constructor; [cbn; intuition discriminate|]). constructor.
  - cbn. intros s [<-|[<-|[<-|[]]]]; reflexivity.
  - vm_compute. reflexivity.
  - vm_compute. reflexivity.
Defined.

(** C6, the claim as stated fails, in binary64 under either [sum].

    - Size. With 1e15 held in B at price 1 and everything targeted at A at
      price 7, the plan trades 1e15 each way and A ends at
      142857142857142.84 shares, worth 999999999999999.88: 0.125 away from
      its target of 1e15, more than 0.01.
    - Overflow. With 1e308 held in A at price 1 and half targeted at B at
      price 1e-300, B ends at infinitely many shares and the second plan
      asks to buy A for an infinite amount.
    - The dead-band. With three stocks at price 1, everything targeted at
      AAPL, and holdings {AAPL: 100, META: 0.009, GOOG: 0.009}, AAPL ends
      at 100.02 out of a new total of 100.038, and the second plan is the
      first plan again.
    - Negative fractions, which the constructor accepts as long as the sum
      is 1.0. With {AAPL: 1.5, META: -0.5} and 100 shares of each at price
      1, META ends at 0 shares against a target of -100, and the second
      plan still trades 150 each way. *)
Lemma rebalance_misses_target :
  (forall PF, In PF [py311; py312] ->
     rebalance_in PF Extremes.sevens Extremes.all_in_a Extremes.holds_b
     = (Ok [("buy", [ {| order_symbol := "A";
                         amount_in_dollars := 1e15%float |} ]);
            ("sell", [ {| order_symbol := "B";
                          amount_in_dollars := 1e15%float |} ])],
        [("A", 1); ("B", 0)]%float,
        [("B", 0); ("A", 142857142857142.84)]%float)
     /\ total_value_in PF Extremes.sevens Extremes.all_in_a Extremes.holds_b
        = Ok 1e15%float
     /\ @fabs float PF (142857142857142.84 * 7 - 1e15 * 1)%float
        = 0.125%float
     /\ @flt float PF fcent 0.125%float = true)
  /\ (forall PF, In PF [py311; py312] ->
        rebalance_in PF Extremes.pennies Extremes.halves Extremes.holds_a
        = (Ok [("buy", [ {| order_symbol := "B";
                            amount_in_dollars := 5e307%float |} ]);
               ("sell", [ {| order_symbol := "A";
                             amount_in_dollars := 5e307%float |} ])],
           [("A", 0.5); ("B", 0.5)]%float,
           [("A", 5e307); ("B", infinity)]%float)
        /\ second_plan_in PF Extremes.pennies Extremes.halves
             Extremes.holds_a
           = Ok [("buy", [ {| order_symbol := "A";
                              amount_in_dollars := infinity |} ]);
                 ("sell", [])])
  /\ (forall PF, In PF [py311; py312] ->
        rebalance_in PF Inputs.unit_stocks Inputs.all_in_aapl
          Inputs.dust_holdings
        = (Ok [("buy", [ {| order_symbol := "AAPL";
                            amount_in_dollars := 0.02%float |} ]);
               ("sell", [])],
           [("AAPL", 1); ("META", 0); ("GOOG", 0)]%float,
           [("AAPL", 100.02); ("META", 0.009); ("GOOG", 0.009)]%float)
        /\ second_plan_in PF Inputs.unit_stocks Inputs.all_in_aapl
             Inputs.dust_holdings
           = Ok [("buy", [ {| order_symbol := "AAPL";
                              amount_in_dollars := 0.02%float |} ]);
                 ("sell", [])])
  /\ (forall PF, In PF [py311; py312] ->
        rebalance_in PF Inputs.unit_stocks Inputs.short_target
          Inputs.even_holdings
        = (Ok [("buy", [ {| order_symbol := "AAPL";
                            amount_in_dollars := 200%float |} ]);
               ("sell", [ {| order_symbol := "META";
                             amount_in_dollars := 200%float |} ])],
           [("AAPL", 1.5); ("META", -0.5); ("GOOG", 0)]%float,
           [("AAPL", 300); ("META", 0)]%float)
        /\ second_plan_in PF Inputs.unit_stocks Inputs.short_target
             Inputs.even_holdings
           = Ok [("buy", [ {| order_symbol := "AAPL";
                              amount_in_dollars := 150%float |} ]);
                 ("sell", [ {| order_symbol := "META";
                               amount_in_dollars := 150%float |} ])]).
Proof.
  split; [|split; [|split]]; intros P [<-|[<-|[]]]; repeat split;
    vm_compute; reflexivity.
Qed.

(* ----------------------------------------------------------------- *)
(** ** Further properties of the source *)

(** X1. When [get_total_value] is 0, [create_rebalance_plan] returns the
    empty plan and writes nothing (lines 88-89): the target allocation is
    not backfilled. *)
Theorem create_plan_of_empty_portfolio {F} {PF : PyFloat F} (self : Portfolio)
    (h : heap F) (total : F) :
  fst (get_total_value self h) = Ok total ->
  feq total fzero = true ->
  create_rebalance_plan self h = (Ok [("buy", []); ("sell", [])], h).
Proof.
  intros T Z. rewrite create_rebalance_plan_steps, T. now rewrite Z.
Qed.

Lemma create_plan_of_empty_portfolio_witness :
  @create_rebalance_plan float py311 MainExample.portfolio
    (caller_heap MainExample.my_target_allocation [])
  = (Ok [("buy", []); ("sell", [])],
     caller_heap MainExample.my_target_allocation []).
Proof.
  apply (@create_plan_of_empty_portfolio float py311 MainExample.portfolio
           (caller_heap MainExample.my_target_allocation []) 0%float).
  - vm_compute. reflexivity.
  - vm_compute. reflexivity.
Defined.

(** Executing the plan of the example (binary64, either [sum]): MSFT
    goes to 0 shares, AAPL to 13.9167, GOOG to 6.1852, and META is added
    with 4.175 shares, at the end of the caller's holdings dictionary; the
    target allocation has gained the entry MSFT: 0.0. *)
Theorem main_example_execution :
  rebalance_in py311 MainExample.all_stocks MainExample.my_target_allocation
    MainExample.initial_holdings
  = (Ok MainExample.expected_plan,
     [("AAPL", 0.5); ("META", 0.3); ("GOOG", 0.2); ("MSFT", 0)]%float,
     [("AAPL", 13.916666666666666); ("GOOG", 6.1851851851851851);
      ("MSFT", 0); ("META", 4.1749999999999998)]%float)
  /\ rebalance_in py312 MainExample.all_stocks
       MainExample.my_target_allocation MainExample.initial_holdings
     = (Ok MainExample.expected_plan,
        [("AAPL", 0.5); ("META", 0.3); ("GOOG", 0.2); ("MSFT", 0)]%float,
        [("AAPL", 13.916666666666666); ("GOOG", 6.1851851851851851);
         ("MSFT", 0); ("META", 4.1749999999999998)]%float).
Proof. split; vm_compute; reflexivity. Qed.

(** A call whose answer is known leaves the heap it leaves. *)
Lemma pair_of_fst {A B} (p : A * B) (a : A) : fst p = a -> p = (a, snd p).
Proof. intros <-. now destruct p. Qed.

(** X2. The registry the constructor builds (line 35) maps a symbol to the
    last stock of [all_tradable_stocks] that carries it: a lookup gives what
    a search from the end of the list gives. So a stock found under a
    symbol has that symbol and comes from the list, and of two stocks with
    one symbol the later one is kept. *)
Theorem registry_lookup {F} (all_tradable_stocks : list (Stock F)) (s : string) :
  Dict.find s (index_stocks all_tradable_stocks)
  = List.find (fun stock => String.eqb s (symbol stock))
      (rev all_tradable_stocks)
  /\ forall stock,
       Dict.find s (index_stocks all_tradable_stocks) = Some stock ->
       symbol stock = s /\ In stock all_tradable_stocks.
Proof.
  assert (G : forall (l : list (Stock F)) (d : Dict.dict (Stock F)),
    Dict.find s (fold_left (fun d st => Dict.set d (symbol st) st) l d)
    = match List.find (fun st => String.eqb s (symbol st)) (rev l) with
      | Some st => Some st
      | None => Dict.find s d
      end).
  { induction l as [|a l IH]; intros d; cbn; [reflexivity|].
    rewrite IH. clear IH.
    assert (Fa : forall xs : list (Stock F),
      List.find (fun st => String.eqb s (symbol st)) (xs ++ [a])
      = match List.find (fun st => String.eqb s (symbol st)) xs with
        | Some st => Some st
        | None => if String.eqb s (symbol a) then Some a else None
        end).
    { induction xs as [|x xs IHx]; cbn; [reflexivity|].
      destruct (String.eqb s (symbol x)); auto. }
    rewrite Fa. destruct (List.find _ (rev l)); [reflexivity|].
    destruct (String.eqb s (symbol a)) eqn:E.
    - apply String.eqb_eq in E. subst. apply find_set_same.
    - apply String.eqb_neq in E. now apply find_set_other. }
  unfold index_stocks. rewrite G. cbn.
  split; [now destruct (List.find _ _)|].
  intros stock. destruct (List.find _ _) as [st|] eqn:E; [|discriminate].
  intros [= <-]. apply find_some in E as [I E].
  apply String.eqb_eq in E. split; [auto|]. now apply in_rev.
Qed.

(** The loop of lines 64-68 writes nothing. *)
Lemma report_loop_heap {F} {PF : PyFloat F} (items : list (string * F))
    (stocks : Dict.dict (Stock F)) (total : F) (h : heap F) :
  snd (report_loop items stocks total h) = h.
Proof.
  induction items as [|[s x] items IH]; cbn; auto.
  run_monad. destruct (Dict.find s stocks); cbn; auto.
  destruct (report_loop items stocks total h) as [[lines|e] h']; cbn in *; auto.
Qed.

(** X3. [get_total_value] and [get_current_allocation] write no
    dictionary: whatever they return or raise, the heap after the call is
    the heap before it. *)
Theorem observers_never_write {F} {PF : PyFloat F} (self : Portfolio)
    (h : heap F) :
  snd (get_total_value self h) = h
  /\ snd (get_current_allocation self h) = h.
Proof.
  split; [apply get_total_value_heap|].
  unfold get_current_allocation, bind at 1.
  rewrite (get_total_value_eq self h).
  destruct (fst (get_total_value self h)) as [total|e]; [|reflexivity].
  destruct (feq total fzero); [reflexivity|].
  run_monad.
  pose proof (report_loop_heap (sorted (read h (holdings self)))
                (stock_objects self) total h) as R.
  destruct (report_loop _ _ total h) as [[lines|e] h']; cbn in *; auto.
Qed.

(** The loop of lines 50-51 stops at the first symbol the registry lacks. *)
Lemma total_loop_first_unlisted {F} {PF : PyFloat F} (items : list (string * F))
    (stocks : Dict.dict (Stock F)) (acc : F) (h : heap F) :
  match first_unlisted stocks (map fst items) with
  | Some s => total_loop items stocks acc h = (Raise (KeyError s), h)
  | None => exists total, total_loop items stocks acc h = (Ok total, h)
  end.
Proof.
  revert acc. unfold first_unlisted.
  induction items as [|[s x] items IH]; intros acc; cbn.
  - now exists acc.
  - run_monad. unfold Dict.mem.
    destruct (Dict.find s stocks) as [st|]; cbn; [apply IH|reflexivity].
Qed.

(** X4. [get_total_value] returns exactly when every held symbol is in
    the registry. Otherwise it raises [KeyError] for the first held symbol,
    in the insertion order of the holdings, that the registry lacks (line
    51), and so do [get_current_allocation] and [create_rebalance_plan],
    before they print or write anything. *)
Theorem valuation_raises_for_first_unlisted {F} {PF : PyFloat F}
    (self : Portfolio) (h : heap F) :
  match first_unlisted (stock_objects self)
          (Dict.keys (read h (holdings self))) with
  | Some s =>
      get_total_value self h = (Raise (KeyError s), h)
      /\ get_current_allocation self h = (Raise (KeyError s), h)
      /\ create_rebalance_plan self h = (Raise (KeyError s), h)
  | None => exists total, get_total_value self h = (Ok total, h)
  end.
Proof.
  pose proof (total_loop_first_unlisted (read h (holdings self))
                (stock_objects self) fzero h) as T.
  unfold Dict.keys.
  destruct (first_unlisted _ _) as [s|].
  - assert (G : get_total_value self h = (Raise (KeyError s), h))
      by (unfold get_total_value; run_monad; exact T).
    repeat split; auto.
    + unfold get_current_allocation, bind at 1. now rewrite G.
    + rewrite create_rebalance_plan_steps. now rewrite G.
  - destruct T as [total T]. exists total.
    unfold get_total_value. run_monad. exact T.
Qed.

(** X5. Two accepted deposits (registry symbols, share counts greater
    than 0) one after the other: on one symbol they add up, left to right,
    on top of what was held; on two symbols every lookup in the holdings
    gives the same whichever deposit came first. *)
Theorem deposits_compose {F} {PF : PyFloat F} (self : Portfolio)
    (s1 s2 : string) (a b : F) (h : heap F) :
  Dict.mem s1 (stock_objects self) = true ->
  Dict.mem s2 (stock_objects self) = true ->
  flt fzero a = true ->
  flt fzero b = true ->
  let held := read h (holdings self) in
  let after first second :=
    read (snd ((first ;;; second) h)) (holdings self) in
  (s1 = s2 ->
   Dict.find s1 (after (add_position self s1 a) (add_position self s2 b))
   = Some (fadd (fadd (Dict.get held s1 fzero) a) b))
  /\ (s1 <> s2 ->
      forall k,
        Dict.find k (after (add_position self s1 a) (add_position self s2 b))
        = Dict.find k (after (add_position self s2 b) (add_position self s1 a))).
Proof.
  intros M1 M2 A B. cbv zeta.
  unfold add_position. rewrite M1, M2, A, B. cbn [negb].
  unfold bind, load, store. cbn [fst snd].
  rewrite !read_write_same. split.
  - intros <-. rewrite find_set_same. now rewrite get_set_same.
  - intros N k.
    rewrite (get_set_other _ s1 s2) by auto.
    rewrite (get_set_other _ s2 s1) by auto.
    destruct (string_dec k s1) as [->|N1]; [|destruct (string_dec k s2) as [->|N2]].
    + rewrite find_set_other by auto. now rewrite !find_set_same.
    + rewrite find_set_same. rewrite find_set_other by auto.
      now rewrite find_set_same.
    + now rewrite !find_set_other by auto.
Qed.

Lemma deposits_compose_witness :
  Dict.find "AAPL"
    (read (snd ((@add_position float py311 MainExample.portfolio "AAPL" 1%float
                 ;;; @add_position float py311 MainExample.portfolio "AAPL"
                       2%float)
                  MainExample.heap0)) 1)
  = Some 13%float.
Proof.
  exact (proj1 (@deposits_compose float py311 MainExample.portfolio
                  "AAPL" "AAPL" 1%float 2%float MainExample.heap0
                  eq_refl eq_refl eq_refl eq_refl) eq_refl).
Defined.

(** The loop of lines 102-110 ends only when it met registry symbols. *)
Lemma plan_loop_ok_listed {F} {PF : PyFloat F} (items : list (string * F))
    (self : Portfolio) (total : F) (actions plan : Plan F) (h : heap F) :
  fst (plan_loop items self total actions h) = Ok plan ->
  forall s, In s (map fst items) -> Dict.mem s (stock_objects self) = true.
Proof.
  revert actions. induction items as [|[s f] items IH]; intros actions; cbn.
  - intros _ s [].
  - run_monad. unfold Dict.mem.
    destruct (Dict.find s (stock_objects self)) as [st|] eqn:E; cbn;
      [|discriminate].
    intros R k [<-|I]; [now rewrite E|]. eapply IH; eauto.
Qed.

(** X6. [create_rebalance_plan] writes no dictionary but the target
    allocation: every other one, the holdings among them when they are
    another object, reads after the call as before it, whether the call
    returns or raises. *)
Theorem create_plan_writes_only_target {F} {PF : PyFloat F} (self : Portfolio)
    (h : heap F) (l : loc) :
  l <> target_allocation self ->
  read (snd (create_rebalance_plan self h)) l = read h l.
Proof.
  intros N. rewrite create_rebalance_plan_steps.
  destruct (fst (get_total_value self h)) as [total|e]; [|reflexivity].
  destruct (feq total fzero); [reflexivity|].
  cbv zeta. rewrite plan_loop_heap. now apply backfill_frame.
Qed.

Lemma create_plan_writes_only_target_witness :
  read (snd (@create_rebalance_plan float py311 MainExample.portfolio
               MainExample.heap0)) 1
  = MainExample.initial_holdings.
Proof.
  apply (@create_plan_writes_only_target float py311 MainExample.portfolio
           MainExample.heap0 1).
  cbn. discriminate.
Defined.

(** X7. A plan that [create_rebalance_plan] returns has the keys "buy"
    and "sell", in this order, and names no symbol in two orders; every
    symbol it names is a key of the target allocation as the call leaves it
    and a symbol of the registry. *)
Theorem plan_has_one_order_per_symbol {F} {PF : PyFloat F} (self : Portfolio)
    (h h' : heap F) (plan : Plan F) :
  Dict.wf (read h (target_allocation self)) ->
  create_rebalance_plan self h = (Ok plan, h') ->
  let buys := Dict.get plan "buy" [] in
  let sells := Dict.get plan "sell" [] in
  Dict.keys plan = ["buy"; "sell"]
  /\ NoDup (map order_symbol (buys ++ sells))
  /\ forall o, In o (buys ++ sells) ->
       Dict.mem (order_symbol o) (read h' (target_allocation self)) = true
       /\ Dict.mem (order_symbol o) (stock_objects self) = true.
Proof.
  intros W. rewrite create_rebalance_plan_steps.
  destruct (fst (get_total_value self h)) as [total|e]; [|discriminate].
  destruct (feq total fzero).
  { intros [= <- <-]. cbn. split; [reflexivity|split; [constructor|intros o []]]. }
  cbv zeta.
  set (h1 := snd (backfill (Dict.keys (stock_objects self))
                    (target_allocation self) h)).
  set (t1 := read h1 (target_allocation self)).
  intros R.
  assert (W1 : Dict.wf t1).
  { apply backfill_preserves; auto. intros t s _. apply wf_set. }
  assert (K1 : forall s, In s (map fst t1) ->
                         Dict.mem s (stock_objects self) = true).
  { eapply plan_loop_ok_listed. rewrite R. reflexivity. }
  rewrite plan_loop_orders in R by exact K1. cbn [app] in R.
  injection R as <- <-. cbn.
  set (held := read h1 (holdings self)).
  set (B := flat_map (buy_of (stock_objects self) held total) t1).
  set (S := flat_map (sell_of (stock_objects self) held total) t1).
  assert (InS : forall o, In o S ->
            exists f, Dict.find (order_symbol o) t1 = Some f
              /\ sell_of (stock_objects self) held total (order_symbol o, f)
                 = [o]).
  { intros o I. apply order_symbols_of_sells in I as (f & I1 & I2).
    exists f. split; auto. now apply in_find. }
  assert (InB : forall o, In o B ->
            exists f, Dict.find (order_symbol o) t1 = Some f
              /\ buy_of (stock_objects self) held total (order_symbol o, f)
                 = [o]).
  { intros o I. apply order_symbols_of_buys in I as (f & I1 & I2).
    exists f. split; auto. now apply in_find. }
  assert (Mem : forall o, In o (B ++ S) -> Dict.mem (order_symbol o) t1 = true).
  { intros o I. apply in_app_iff in I as [I|I];
      [apply InB in I|apply InS in I]; destruct I as (f & Ff & _);
      unfold Dict.mem; now rewrite Ff. }
  repeat split.
  - rewrite map_app. apply NoDup_app.
    + apply flat_map_symbols_nodup; [apply buy_of_single|exact W1].
    + apply flat_map_symbols_nodup; [apply sell_of_single|exact W1].
    + intros s Ib Is.
      apply in_map_iff in Is as (o & <- & Io).
      apply in_map_iff in Ib as (o' & E & Io').
      apply InS in Io as (f & Ff & Es).
      apply InB in Io' as (f' & Ff' & Eb). rewrite E in *.
      rewrite Ff in Ff'. injection Ff' as <-.
      unfold sell_of, buy_of in *.
      destruct (difference_of _ _ _ _) as [d|]; [|discriminate].
      destruct (flt fcent d); discriminate.
  - now apply Mem.
  - apply K1. apply mem_in_keys. now apply Mem.
Qed.

Lemma plan_has_one_order_per_symbol_witness :
  NoDup (map order_symbol
           (Dict.get MainExample.expected_plan "buy" []
              ++ Dict.get MainExample.expected_plan "sell" [])).
Proof.
  apply (@plan_has_one_order_per_symbol float py311 MainExample.portfolio
           MainExample.heap0
           (snd (@create_rebalance_plan float py311 MainExample.portfolio
                   MainExample.heap0))
           MainExample.expected_plan).
  - unfold Dict.wf. cbn.
    repeat (constructor; [cbn; intuition discriminate|]). constructor.
  - apply pair_of_fst. vm_compute. reflexivity.
Defined.

(** Orders remove no key. *)
Lemma spec_apply_all_keeps_keys {F} {PF : PyFloat F}
    (stocks : Dict.dict (Stock F)) (todo : list (side * Order F))
    (d : Dict.dict F) (s : string) :
  Dict.mem s d = true ->
  Dict.mem s (snd (spec_apply_all stocks todo d)) = true.
Proof.
  revert d. induction todo as [|[sd o] todo IH]; intros d M; cbn; auto.
  destruct (Dict.find (order_symbol o) stocks) as [st|]; cbn; auto.
  apply IH. destruct sd; unfold spec_sell, spec_buy;
    destruct (flt fzero (current_price st)); auto; now apply mem_set_mono.
Qed.

(** X8. [execute_rebalance] leaves the entry of every symbol that no order
    of the plan names as it was, and removes no key from the holdings,
    whether it runs to the end or raises on the way. *)
Theorem execute_touches_only_plan_symbols {F} {PF : PyFloat F}
    (self : Portfolio) (plan : Plan F) (h : heap F) :
  let held := read h (holdings self) in
  let held' := read (snd (execute_rebalance self plan h)) (holdings self) in
  (forall s,
     (forall o, In o (Dict.get plan "sell" [] ++ Dict.get plan "buy" []) ->
                order_symbol o <> s) ->
     Dict.find s held' = Dict.find s held)
  /\ (forall s, Dict.mem s held = true -> Dict.mem s held' = true).
Proof.
  cbv zeta. destruct (execute_rebalance_run self plan h) as (_ & R & _).
  cbn zeta in R. rewrite R. unfold spec_execute. split.
  - intros s A. apply spec_apply_all_find_other.
    intros [sd o] I. cbn. apply A.
    apply in_app_iff in I as [I|I]; apply in_map_iff in I as (o' & [= <- <-] & I);
      apply in_app_iff; auto.
  - intros s. apply spec_apply_all_keeps_keys.
Qed.

(** A loop over two lists, one after the other. *)
Lemma for_each_app {F A} (xs ys : list A) (body : A -> M F unit)
    (h : heap F) :
  for_each (xs ++ ys) body h
  = match for_each xs body h with
    | (Ok _, h') => for_each ys body h'
    | (Raise e, h') => (Raise e, h')
    end.
Proof.
  revert h. induction xs as [|x xs IH]; intros h; cbn; [reflexivity|].
  unfold bind. destruct (body x h) as [[[]|e] h1]; auto.
Qed.

(** X9. [execute_rebalance] is not all-or-nothing. When a sell order
    names a symbol the registry lacks and the sell orders before it name
    registry symbols, these are carried out, then [KeyError] is raised for
    the missing symbol (line 121): the heap is left as the earlier sells
    made it, and neither the later sells nor any buy is carried out. *)
Theorem execute_stops_at_unlisted_sell {F} {PF : PyFloat F}
    (self : Portfolio) (plan : Plan F) (h : heap F)
    (done rest : list (Order F)) (bad : Order F) :
  Dict.get plan "sell" [] = done ++ bad :: rest ->
  (forall o, In o done -> Dict.mem (order_symbol o) (stock_objects self) = true) ->
  Dict.mem (order_symbol bad) (stock_objects self) = false ->
  for_each done (sell_order self) h
  = (Ok tt, snd (for_each done (sell_order self) h))
  /\ execute_rebalance self plan h
     = (Raise (KeyError (order_symbol bad)),
        snd (for_each done (sell_order self) h)).
Proof.
  intros E D B.
  assert (O : fst (for_each done (sell_order self) h) = Ok tt).
  { destruct (for_each_orders self Sell done h) as (R1 & _). cbn zeta in R1.
    rewrite R1. apply spec_apply_all_ok. intros [sd o] I.
    apply in_map_iff in I as (o' & [= <- <-] & I). cbn. now apply D. }
  unfold execute_rebalance, bind. rewrite E, for_each_app.
  destruct (for_each done (sell_order self) h) as [[[]|e] h1];
    cbn in O; [|discriminate].
  split; [reflexivity|]. cbn [for_each snd]. unfold bind.
  assert (S : sell_order self bad h1 = (Raise (KeyError (order_symbol bad)), h1)).
  { unfold sell_order, bind, getitem. unfold Dict.mem in B.
    destruct (Dict.find (order_symbol bad) (stock_objects self));
      [discriminate|reflexivity]. }
  now rewrite S.
Qed.

Lemma execute_stops_at_unlisted_sell_witness :
  @execute_rebalance float py311 MainExample.portfolio
    plan_with_unlisted_sell MainExample.heap0
  = (Raise (KeyError "TSLA"),
     snd (for_each [ {| order_symbol := "AAPL";
                        amount_in_dollars := 150%float |} ]
            (@sell_order float py311 MainExample.portfolio)
            MainExample.heap0)).
Proof.
  apply (@execute_stops_at_unlisted_sell float py311 MainExample.portfolio
           plan_with_unlisted_sell MainExample.heap0
           [ {| order_symbol := "AAPL"; amount_in_dollars := 150%float |} ]
           [ {| order_symbol := "GOOG"; amount_in_dollars := 135%float |} ]
           {| order_symbol := "TSLA"; amount_in_dollars := 10%float |}).
  - reflexivity.
  - intros o [<-|[]]. vm_compute. reflexivity.
  - vm_compute. reflexivity.
Defined.

(** X10. When the total value is neither 0 nor greater than 0 (holdings
    with negative share counts or prices), [get_current_allocation] prints
    the total line alone: every percentage is taken as 0 (line 66) and no
    position passes the test of line 67. *)
Theorem report_of_nonpositive_total {F} {PF : PyFloat F} `{!PyFloatOrder F}
    (self : Portfolio) (h : heap F) (total : F) :
  fst (get_total_value self h) = Ok total ->
  feq total fzero = false ->
  flt fzero total = false ->
  get_current_allocation self h = (Ok [TotalLine total], h).
Proof.
  intros T Z P.
  assert (G : get_total_value self h = (Ok total, h))
    by (rewrite (get_total_value_eq self h); now rewrite T).
  unfold get_current_allocation, bind at 1. rewrite G, Z.
  run_monad.
  assert (L : forall items,
    (forall s, In s (map fst items) -> Dict.mem s (stock_objects self) = true) ->
    report_loop items (stock_objects self) total h = (Ok [], h)).
  { induction items as [|[s x] items IH]; intros A; cbn; [reflexivity|].
    run_monad. specialize (A s) as As. unfold Dict.mem in As.
    destruct (Dict.find s (stock_objects self)) as [st|];
      [|now specialize (As (or_introl eq_refl))].
    cbn. rewrite IH by (intros s' I; apply A; now right). cbn.
    unfold percentage_of. rewrite P. now rewrite flt_zero_irrefl. }
  rewrite L; [reflexivity|].
  intros s I.
  pose proof (total_loop_first_unlisted (read h (holdings self))
                (stock_objects self) fzero h) as U.
  unfold get_total_value in G. run_monad.
  destruct (first_unlisted _ _) eqn:FU.
  - rewrite U in G. discriminate.
  - unfold first_unlisted in FU.
    assert (I' : In s (map fst (read h (holdings self)))).
    { eapply Permutation_in; [|exact I]. apply Permutation_map, sorted_perm. }
    pose proof (find_none _ _ FU s I') as Nn. cbn in Nn.
    now apply negb_false_iff in Nn.
Qed.

Lemma report_of_nonpositive_total_witness :
  @get_current_allocation float py311 MainExample.portfolio
    (caller_heap MainExample.my_target_allocation [("AAPL", (-1)%float)])
  = (Ok [TotalLine (-150)%float],
     caller_heap MainExample.my_target_allocation [("AAPL", (-1)%float)]).
Proof.
  apply (@report_of_nonpositive_total float py311 (Float_PyFloatOrder false)
           MainExample.portfolio
           (caller_heap MainExample.my_target_allocation
              [("AAPL", (-1)%float)])
           (-150)%float).
  - vm_compute. reflexivity.
  - vm_compute. reflexivity.
  - vm_compute. reflexivity.
Defined.

(* ----------------------------------------------------------------- *)
(** ** The callers in [app.py] *)

Lemma mem_snoc {V} (d : Dict.dict V) (k k' : string) (v : V) :
  Dict.mem k (d ++ [(k', v)]) = Dict.mem k d || String.eqb k k'.
Proof.
  unfold Dict.mem. induction d as [|[k0 v0] d IH]; cbn.
  - now destruct (String.eqb k k').
  - destruct (String.eqb k k0); auto.
Qed.

(** A dictionary comprehension over distinct keys lists its items in the
    order of the iteration. *)
Lemma fold_set_fresh {A V} (key : A -> string) (val : A -> V) (l : list A) :
  forall d : Dict.dict V,
    NoDup (map key l) ->
    (forall a, In a l -> Dict.mem (key a) d = false) ->
    fold_left (fun d a => Dict.set d (key a) (val a)) l d
    = d ++ map (fun a => (key a, val a)) l.
Proof.
  induction l as [|a l IH]; intros d ND Hf; cbn.
  - now rewrite app_nil_r.
  - inversion ND as [|? ? Hn ND']; subst.
    rewrite set_new by (apply Hf; now left).
    rewrite IH; auto.
    + now rewrite <- app_assoc.
    + intros a' Ha'. rewrite mem_snoc, Hf by now right. cbn.
      apply String.eqb_neq. intros E. apply Hn. rewrite <- E.
      now apply in_map.
Qed.

(** Every stock of the list is in the registry. *)
Lemma index_stocks_mem {F} (stock : Stock F) (l : list (Stock F)) :
  forall d : Dict.dict (Stock F),
    In stock l \/ Dict.mem (symbol stock) d = true ->
    Dict.mem (symbol stock)
      (fold_left (fun d st => Dict.set d (symbol st) st) l d) = true.
Proof.
  induction l as [|a l IH]; intros d Hd; cbn.
  - now destruct Hd as [[]|Hm].
  - apply IH. destruct Hd as [[->|Hin]|Hm].
    + right. apply mem_set_same.
    + now left.
    + right. now apply mem_set_mono.
Qed.

Section AppFacts.

Context {F : Type} {PF : PyFloat F}.

(** A constructor call without [initial_holdings] on an accepted target. *)
Lemma init_fresh (all_tradable_stocks : list (Stock F)) (target : loc)
    (h : heap F) :
  feq (fsum (Dict.values (read h target))) fone = true ->
  forallb (fun s => Dict.mem s (index_stocks all_tradable_stocks))
          (Dict.keys (read h target)) = true ->
  __init__ all_tradable_stocks target None h
  = (Ok {| target_allocation := target;
           stock_objects := index_stocks all_tradable_stocks;
           holdings := next h |},
     {| cells := fun l' => if Nat.eqb l' (next h) then [] else cells h l';
        next := S (next h) |}).
Proof.
  intros Hs Hk. unfold __init__, bind, load, alloc. cbn [fst snd].
  rewrite Hs. cbn [negb]. now rewrite check_tradable_ok.
Qed.

(** What the loop of lines 58-60 leaves in a holdings dictionary that has
    none of the symbols yet. *)
Lemma deposit_loop (p : @Portfolio F) (items : Dict.dict F) :
  forall h : heap F,
    NoDup (map fst items) ->
    (forall it, In it items -> Dict.mem (fst it) (stock_objects p) = true) ->
    (forall it, In it items ->
                Dict.mem (fst it) (read h (holdings p)) = false) ->
    let r := for_each items
               (fun item =>
                  if flt fzero (snd item)
                  then add_position p (fst item) (snd item)
                  else ret tt) h in
    fst r = Ok tt
    /\ read (snd r) (holdings p)
       = read h (holdings p)
         ++ map (fun it => (fst it, fadd fzero (snd it)))
                (filter (fun it => flt fzero (snd it)) items)
    /\ forall l, l <> holdings p -> read (snd r) l = read h l.
Proof.
  induction items as [|[s x] items IH]; intros h ND Hl Hf; cbn -[add_position].
  - repeat split. now rewrite app_nil_r.
  - inversion ND as [|? ? Hn ND']; subst.
    assert (Hrest : forall it, In it items ->
              Dict.mem (fst it) (stock_objects p) = true)
      by (intros; apply Hl; now right).
    unfold bind. cbn [fst snd].
    destruct (flt fzero x) eqn:Ex.
    + pose proof (Hf (s, x) (or_introl eq_refl)) as Hs. cbn in Hs.
      assert (Ea : add_position p s x h
                   = (Ok tt,
                      write h (holdings p)
                        (read h (holdings p) ++ [(s, fadd fzero x)]))).
      { unfold add_position.
        pose proof (Hl (s, x) (or_introl eq_refl)) as Hm. cbn in Hm.
        rewrite Hm. cbn [negb]. rewrite Ex.
        unfold bind, load, store. cbn [fst snd].
        assert (Eg : Dict.get (read h (holdings p)) s fzero = fzero).
        { unfold Dict.get. unfold Dict.mem in Hs.
          now destruct (Dict.find s (read h (holdings p))). }
        now rewrite Eg, set_new by exact Hs. }
      rewrite Ea. cbv beta iota.
      set (h1 := write h (holdings p) _).
      specialize (IH h1 ND' Hrest).
      assert (H1 : forall it, In it items ->
                Dict.mem (fst it) (read h1 (holdings p)) = false).
      { intros it Hit. unfold h1. rewrite read_write_same, mem_snoc.
        rewrite Hf by now right. cbn. apply String.eqb_neq.
        intros E. apply Hn. rewrite <- E. now apply in_map. }
      destruct (IH H1) as (R1 & R2 & R3).
      split; [exact R1|]. split.
      * rewrite R2. unfold h1. rewrite read_write_same.
        cbn [map fst snd]. now rewrite <- app_assoc.
      * intros l Hne. rewrite R3 by exact Hne. unfold h1.
        now apply read_write_other.
    + unfold ret at 1 2 3. cbv beta iota.
      apply IH; auto. intros it Hit. apply Hf. now right.
Qed.

End AppFacts.

(** X15. The first run of [app.py] (lines 33-41) on its own constants: with
    the plain left-to-right [sum] the default target allocation adds up to
    0.9999999999999999 and the constructor raises [ValueError]; with the
    compensated [sum] the session gets a copy of the default allocation
    and an engine that works on the module's [DEFAULT_INITIAL_HOLDINGS]
    object itself. *)
Theorem app_start_depends_on_sum :
  fst (@start_session float py311 AppConstants.ALL_STOCKS 0 1
         AppConstants.module_heap)
  = Raise (ValueError "Target allocation percentages must sum to 1.0")
  /\ exists ss h,
       @start_session float py312 AppConstants.ALL_STOCKS 0 1
         AppConstants.module_heap = (Ok ss, h)
       /\ session_target_allocation ss = 2
       /\ target_allocation (session_portfolio ss) = 2
       /\ holdings (session_portfolio ss) = 1
       /\ session_rebalance_plan ss = None
       /\ read h 2 = AppConstants.DEFAULT_TARGET_ALLOCATION
       /\ read h 1 = AppConstants.DEFAULT_INITIAL_HOLDINGS.
Proof.
  split; [vm_compute; reflexivity|].
  eexists. eexists. split; [vm_compute; reflexivity|].
  cbn. repeat split.
Qed.

(** X16. "Update Portfolio Holdings" (lines 56-61), when the session's
    target allocation passes the constructor and [ALL_STOCKS] has no symbol
    twice: the session gets a new engine whose holdings are a new
    dictionary with exactly the inputs that are greater than 0, in the
    order of [ALL_STOCKS], each stored as [0.0 + shares]; the plan is
    cleared and no other dictionary, the previous holdings included, is
    written. *)
Theorem update_holdings_rebuilds {F} {PF : PyFloat F}
    (ALL_STOCKS : list (Stock F)) (entered : string -> F)
    (ss : SessionState F) (h : heap F) :
  NoDup (map symbol ALL_STOCKS) ->
  feq (fsum (Dict.values (read h (session_target_allocation ss)))) fone
  = true ->
  forallb (fun s => Dict.mem s (index_stocks ALL_STOCKS))
          (Dict.keys (read h (session_target_allocation ss))) = true ->
  exists p h',
    update_portfolio_holdings ALL_STOCKS entered ss h
    = (Ok tt,
       {| session_target_allocation := session_target_allocation ss;
          session_portfolio := p;
          session_rebalance_plan := None |},
       h')
    /\ target_allocation p = session_target_allocation ss
    /\ holdings p = next h
    /\ read h' (next h)
       = map (fun stock => (symbol stock, fadd fzero (entered (symbol stock))))
             (filter (fun stock => flt fzero (entered (symbol stock)))
                     ALL_STOCKS)
    /\ forall l, l <> next h -> read h' l = read h l.
Proof.
  intros ND Hs Hk. unfold update_portfolio_holdings.
  rewrite init_fresh by assumption.
  set (p := {| target_allocation := session_target_allocation ss;
               stock_objects := index_stocks ALL_STOCKS;
               holdings := next h |}).
  set (h1 := {| cells := _; next := S (next h) |}).
  assert (Ei : share_inputs ALL_STOCKS entered
               = map (fun stock => (symbol stock, entered (symbol stock)))
                     ALL_STOCKS).
  { unfold share_inputs.
    now rewrite (fold_set_fresh symbol (fun stock => entered (symbol stock))). }
  assert (R0 : read h1 (next h) = []).
  { unfold read, h1. cbn. now rewrite Nat.eqb_refl. }
  pose proof (deposit_loop p (share_inputs ALL_STOCKS entered) h1) as D.
  rewrite Ei in D.
  assert (Ek : map fst (map (fun stock : Stock F =>
                 (symbol stock, entered (symbol stock))) ALL_STOCKS)
               = map symbol ALL_STOCKS).
  { rewrite map_map. now apply map_ext. }
  rewrite Ek in D. specialize (D ND).
  assert (D1 : forall it,
            In it (map (fun stock : Stock F =>
                     (symbol stock, entered (symbol stock))) ALL_STOCKS) ->
            Dict.mem (fst it) (stock_objects p) = true).
  { intros it Hit. apply in_map_iff in Hit as (stock & <- & Hin). cbn.
    unfold index_stocks. apply index_stocks_mem. now left. }
  assert (D2 : forall it,
            In it (map (fun stock : Stock F =>
                     (symbol stock, entered (symbol stock))) ALL_STOCKS) ->
            Dict.mem (fst it) (read h1 (holdings p)) = false).
  { intros it _. cbn [holdings p]. now rewrite R0. }
  destruct (D D1 D2) as (R1 & R2 & R3). clear D.
  rewrite Ei.
  destruct (for_each _ _ h1) as [[[]|e] h2]; cbn in R1; [|discriminate].
  exists p, h2. split; [reflexivity|]. split; [reflexivity|].
  split; [reflexivity|]. cbn [snd holdings p] in R2, R3. split.
  - rewrite R2, R0. cbn [app].
    clear. induction ALL_STOCKS as [|a l IH]; cbn; auto.
    destruct (flt fzero (entered (symbol a))); cbn; now rewrite IH.
  - intros l Hne. rewrite R3 by exact Hne. unfold read, h1. cbn.
    apply Nat.eqb_neq in Hne. now rewrite Hne.
Qed.

Lemma update_holdings_rebuilds_witness :
  exists p h',
    @update_portfolio_holdings float py312 AppConstants.ALL_STOCKS
      (fun s => if String.eqb s "GOOG" then 2%float
                else if String.eqb s "AAPL" then 3%float else 0%float)
      {| session_target_allocation := 0;
         session_portfolio :=
           {| target_allocation := 0;
              stock_objects := index_stocks AppConstants.ALL_STOCKS;
              holdings := 1 |};
         session_rebalance_plan := None |}
      AppConstants.module_heap
    = (Ok tt,
       {| session_target_allocation := 0;
          session_portfolio := p;
          session_rebalance_plan := None |},
       h')
    /\ target_allocation p = 0
    /\ holdings p = 2
    /\ read h' 2 = [("AAPL", 3%float); ("GOOG", 2%float)]
    /\ forall l, l <> 2 -> read h' l = read AppConstants.module_heap l.
Proof.
  apply (@update_holdings_rebuilds float py312 AppConstants.ALL_STOCKS
           (fun s => if String.eqb s "GOOG" then 2%float
                     else if String.eqb s "AAPL" then 3%float else 0%float)
           {| session_target_allocation := 0;
              session_portfolio :=
                {| target_allocation := 0;
                   stock_objects := index_stocks AppConstants.ALL_STOCKS;
                   holdings := 1 |};
              session_rebalance_plan := None |}
           AppConstants.module_heap).
  - cbn. repeat (constructor; [cbn; intuition discriminate|]). constructor.
  - vm_compute. reflexivity.
  - vm_compute. reflexivity.
Defined.

(** X19. A percentage [p] stored as [p / 100.0] (line 111) and shown again
    as [int(target_pct * 100)] (line 97): in exact arithmetic every integer
    comes back as itself; in binary64, of the slider's range 0..100, all
    but 29, 57 and 58 come back as themselves, and these three come back
    one lower (28, 56, 57). *)
Theorem slider_round_trip (p : Z) :
  @slider_default Q exact _ (@fraction_of Q exact _ p) = Some p
  /\ ((0 <= p <= 100)%Z ->
      forall compensated,
        @slider_default float (Float64.Float_PyFloat compensated) _
          (@fraction_of float (Float64.Float_PyFloat compensated) _ p)
        = Some (if existsb (Z.eqb p) [29; 57; 58]%Z then (p - 1)%Z else p)).
Proof.
  split.
  - unfold slider_default, fraction_of.
    cbn [to_int of_int Q_PyIntConv fmul fdiv fhundred exact Exact.Q_PyFloat].
    f_equal. cbn [Qnum Qden Qmult Qdiv Qinv inject_Z Z.mul Pos.mul].
    rewrite Z.mul_1_r. apply Z.quot_mul. discriminate.
  - intros Hp compensated.
    assert (A : forallb
                  (fun n =>
                     match @slider_default float py311 _
                             (@fraction_of float py311 _ (Z.of_nat n)) with
                     | Some v =>
                         Z.eqb v
                           (if existsb (Z.eqb (Z.of_nat n)) [29; 57; 58]%Z
                            then (Z.of_nat n - 1)%Z else Z.of_nat n)
                     | None => false
                     end) (seq 0 101) = true)
      by (vm_compute; reflexivity).
    rewrite forallb_forall in A.
    specialize (A (Z.to_nat p)). rewrite Z2Nat.id in A by lia.
    assert (I : In (Z.to_nat p) (seq 0 101)) by (apply in_seq; lia).
    specialize (A I).
    change (@slider_default float (Float64.Float_PyFloat compensated) _
              (@fraction_of float (Float64.Float_PyFloat compensated) _ p))
      with (@slider_default float py311 _ (@fraction_of float py311 _ p)).
    destruct (@slider_default float py311 _ (@fraction_of float py311 _ p));
      [|discriminate].
    apply Z.eqb_eq in A. now rewrite A.
Qed.

Lemma slider_round_trip_witness :
  @slider_default Q exact _ (@fraction_of Q exact _ 29%Z) = Some 29%Z
  /\ @slider_default float py311 _ (@fraction_of float py311 _ 29%Z)
     = Some 28%Z.
Proof.
  destruct (slider_round_trip 29%Z) as [E R].
  split; [exact E|]. apply (R ltac:(lia) false).
Defined.
